(** * AV Coins backend: sessions, login-or-create and the coin ledger

    A shallow embedding of [src/main.py] (the FastAPI handlers [login], [me],
    [add_coins] and their helpers) over an explicit model of the document
    store, and the properties of the specification proved about it.

    Conventions.
    - A Python [str] is a [string], a sequence of code points below 256.
      That is exact for header text, which the framework decodes as
      Latin-1; emails and names are taken in that range.
    - A Python [int] is a [Z].
    - The ambient global [db] becomes explicit state: every helper is a
      computation in the monad [M], which threads the store, may raise, and
      records the store round-trips it makes.
    - What the program takes from its environment (the clock, the random
      token, the identifiers the store assigns) is an explicit input [Env]. *)

From Stdlib Require Import ZArith List String Ascii Bool Arith Lia.
Import ListNotations.

Local Open Scope string_scope.
Local Open Scope list_scope.
Local Open Scope nat_scope.

(* ------------------------------------------------------------------ *)
(** ** Python string primitives used by the handlers *)

Module PyStr.

(** [str.isspace] on one code point below 256: U+0009..U+000D,
    U+001C..U+0020, U+0085 and U+00A0. *)
Definition isspace (c : ascii) : bool :=
  let n := nat_of_ascii c in
  (((9 <=? n) && (n <=? 13)) || ((28 <=? n) && (n <=? 32))
   || (n =? 133) || (n =? 160))%nat.

(** [s.lstrip()] *)
Fixpoint lstrip (s : string) : string :=
  match s with
  | EmptyString => EmptyString
  | String c r => if isspace c then lstrip r else s
  end.

(** [s.rstrip()] *)
Fixpoint rstrip (s : string) : string :=
  match s with
  | EmptyString => EmptyString
  | String c r =>
      match rstrip r with
      | EmptyString => if isspace c then EmptyString else String c EmptyString
      | r' => String c r'
      end
  end.

(** [s.strip()] *)
Definition strip (s : string) : string := rstrip (lstrip s).

(** [s.startswith(p)] *)
Definition startswith (p s : string) : bool := String.prefix p s.

(** [s.replace(old, new)] for a non-empty [old]: the occurrences of [old]
    are found from left to right without overlap.  [skip] counts the
    characters of a matched occurrence that are still to be dropped. *)
Fixpoint replace_from (old new : string) (skip : nat) (s : string) : string :=
  match s with
  | EmptyString => EmptyString
  | String c r =>
      match skip with
      | S k => replace_from old new k r
      | O =>
          if startswith old s
          then (new ++ replace_from old new (String.length old - 1) r)%string
          else String c (replace_from old new 0 r)
      end
  end.

(** [s.replace(old, new)]; with an empty [old] Python puts [new] before
    every character and at the end. *)
Fixpoint intersperse (new s : string) : string :=
  match s with
  | EmptyString => new
  | String c r => (new ++ String c (intersperse new r))%string
  end.

Definition replace (old new s : string) : string :=
  match old with
  | EmptyString => intersperse new s
  | _ => replace_from old new 0 s
  end.

(** [s.removeprefix(p)] *)
Definition removeprefix (p s : string) : string :=
  if startswith p s
  then String.substring (String.length p) (String.length s - String.length p) s
  else s.

(** [s.split(sep)[0]] for a one-character [sep]: the text before the
    first [sep], the whole string when there is none. *)
Fixpoint split_head (sep : ascii) (s : string) : string :=
  match s with
  | EmptyString => EmptyString
  | String c r => if Ascii.eqb c sep then EmptyString else String c (split_head sep r)
  end.

(** Truth value of a [str]: the empty string is false. *)
Definition truthy (s : string) : bool :=
  match s with EmptyString => false | _ => true end.

(** Truth value of an [Optional[str]]. *)
Definition truthy_opt (o : option string) : bool :=
  match o with None => false | Some s => truthy s end.

(** [a or b] on an [Optional[str]] and a [str]. *)
Definition or_else (o : option string) (d : string) : string :=
  match o with
  | Some s => if truthy s then s else d
  | None => d
  end.

Fixpoint forallb (p : ascii -> bool) (s : string) : bool :=
  match s with
  | EmptyString => true
  | String c r => p c && forallb p r
  end.

Fixpoint map (f : ascii -> ascii) (s : string) : string :=
  match s with
  | EmptyString => EmptyString
  | String c r => String (f c) (map f r)
  end.

Definition is_digit (c : ascii) : bool :=
  let n := nat_of_ascii c in ((48 <=? n) && (n <=? 57))%nat.

Definition is_lower_af (c : ascii) : bool :=
  let n := nat_of_ascii c in ((97 <=? n) && (n <=? 102))%nat.

Definition is_upper_AF (c : ascii) : bool :=
  let n := nat_of_ascii c in ((65 <=? n) && (n <=? 70))%nat.

Definition is_hex (c : ascii) : bool := is_digit c || is_lower_af c || is_upper_AF c.

Definition is_lower_hex (c : ascii) : bool := is_digit c || is_lower_af c.

(** Lower-casing of a hexadecimal digit. *)
Definition lower_hex (c : ascii) : ascii :=
  if is_upper_AF c then ascii_of_nat (nat_of_ascii c + 32) else c.

End PyStr.

(* ------------------------------------------------------------------ *)
(** ** Store identifiers ([bson.objectid.ObjectId])

    An ObjectId is a value of 12 bytes; [str] renders it as 24 lower-case
    hexadecimal digits.  The constructor [ObjectId(s)] takes a [str] of
    exactly 24 characters and hands it to [bytes.fromhex], raising
    [InvalidId] when the length is another or [fromhex] refuses the text.
    [bytes.fromhex] reads two hexadecimal digits per byte, in either case,
    and skips ASCII whitespace between the bytes; so a string of 24
    characters in which whitespace pads fewer digits is accepted too, and
    builds a value of fewer than 12 bytes.  The value is represented by the
    lower-case digits of its bytes. *)

Module ObjectId.

Record t := Oid { hex : string }.

Definition eqb (a b : t) : bool := String.eqb (hex a) (hex b).

(** The characters [bytes.fromhex] skips: tab, line feed, vertical tab,
    form feed, carriage return and space. *)
Definition is_ascii_space (c : ascii) : bool :=
  let n := nat_of_ascii c in
  (((9 <=? n) && (n <=? 13)) || (n =? 32))%nat.

(** [bytes.fromhex(s)], the bytes given by their lower-case digits; [None]
    stands for its [ValueError]. *)
Fixpoint fromhex (s : string) : option string :=
  match s with
  | EmptyString => Some EmptyString
  | String c r =>
      if is_ascii_space c then fromhex r
      else if PyStr.is_hex c
      then
        match r with
        | String c' r' =>
            if PyStr.is_hex c'
            then
              match fromhex r' with
              | Some digits =>
                  Some (String (PyStr.lower_hex c) (String (PyStr.lower_hex c') digits))
              | None => None
              end
            else None
        | EmptyString => None
        end
      else None
  end.

(** Identifiers as the store produces them. *)
Definition wf (o : t) : bool :=
  (String.length (hex o) =? 24)%nat && PyStr.forallb PyStr.is_lower_hex (hex o).

(** [str(oid)] *)
Definition str (o : t) : string := hex o.

(** What the constructor call [ObjectId(s)] does: it builds the value or
    raises [bson.errors.InvalidId]. *)
Inductive constructed :=
| Ok (o : t)
| InvalidId.

(** [ObjectId(s)] *)
Definition of_str (s : string) : constructed :=
  if (String.length s =? 24)%nat
  then
    match fromhex s with
    | Some digits => Ok (Oid digits)
    | None => InvalidId
    end
  else InvalidId.

(** [ObjectId.is_valid(s)] for a [str]: whether the constructor accepts it. *)
Definition is_valid (s : string) : bool :=
  match of_str s with
  | Ok _ => true
  | InvalidId => false
  end.

End ObjectId.

(* ------------------------------------------------------------------ *)
(** ** Documents and the store *)

(** [datetime.now(timezone.utc)], as ticks of the clock. *)
Definition Time := nat.

(** A document of the collection ["usercoin"], with the fields this program
    writes ([email], [name], [coins] on insert; [name], [coins],
    [updated_at] on update) and the [_id] the store assigns. *)
Record UserDoc := mkUser {
  u_id : ObjectId.t;
  u_email : string;
  u_name : string;
  u_coins : Z;
  u_updated_at : option Time
}.

(** A document of the collection ["session"]. *)
Record SessionDoc := mkSession {
  s_id : ObjectId.t;
  s_token : string;
  s_user_id : string;
  s_user_email : string
}.

(** The store: two collections, each in insertion order. *)
Record DB := mkDB {
  usercoin : list UserDoc;
  session : list SessionDoc
}.

Definition empty_db : DB := mkDB [] [].

Inductive Coll := Cusercoin | Csession.

(** One round-trip to the store. *)
Inductive Op :=
| FindOne (c : Coll)
| InsertOne (c : Coll)
| UpdateOne (c : Coll).

Definition Coll_eqb (a b : Coll) : bool :=
  match a, b with
  | Cusercoin, Cusercoin | Csession, Csession => true
  | _, _ => false
  end.

Definition is_insert_on (c : Coll) (o : Op) : bool :=
  match o with InsertOne c' => Coll_eqb c c' | _ => false end.

Definition is_update_on (c : Coll) (o : Op) : bool :=
  match o with UpdateOne c' => Coll_eqb c c' | _ => false end.

Definition is_write (o : Op) : bool :=
  match o with FindOne _ => false | _ => true end.

Definition count_ops (p : Op -> bool) (tr : list Op) : nat :=
  List.length (filter p tr).

(* ------------------------------------------------------------------ *)
(** ** The monad of the handlers *)

Inductive Exn :=
| HTTPException (status_code : nat) (detail : string)
| NoneAccess.   (* [AttributeError] or [TypeError]: a field read on [None] *)

Inductive Outcome (A : Type) :=
| Return (a : A)
| Raise (e : Exn).
Arguments Return {A} a.
Arguments Raise {A} e.

(** A computation reads and writes the store, ends with a value or an
    exception, and leaves the list of its round-trips, oldest first.  What
    was written before an exception stays written. *)
Definition M (A : Type) : Type := DB -> Outcome A * DB * list Op.

Definition ret {A} (a : A) : M A := fun db => (Return a, db, []).

Definition raise {A} (e : Exn) : M A := fun db => (Raise e, db, []).

Definition bind {A B} (m : M A) (k : A -> M B) : M B :=
  fun db =>
    match m db with
    | (Return a, db1, tr1) =>
        match k a db1 with
        | (r, db2, tr2) => (r, db2, tr1 ++ tr2)
        end
    | (Raise e, db1, tr1) => (Raise e, db1, tr1)
    end.

Notation "x <- m ;; k" := (bind m (fun x => k))
  (at level 61, m at next level, right associativity).
Notation "m ;;; k" := (bind m (fun _ => k))
  (at level 61, right associativity).

Definition result {A} (x : Outcome A * DB * list Op) : Outcome A := fst (fst x).
Definition store {A} (x : Outcome A * DB * list Op) : DB := snd (fst x).
Definition trace {A} (x : Outcome A * DB * list Op) : list Op := snd x.

(* ------------------------------------------------------------------ *)
(** ** Store primitives (pymongo's [find_one] and [update_one]) *)

(** [db["usercoin"].find_one({"email": email})] *)
Definition find_one_user_by_email (email : string) : M (option UserDoc) :=
  fun db =>
    (Return (find (fun u => String.eqb (u_email u) email) (usercoin db)),
     db, [FindOne Cusercoin]).

(** [db["usercoin"].find_one({"_id": oid})] *)
Definition find_one_user_by_oid (oid : ObjectId.t) : M (option UserDoc) :=
  fun db =>
    (Return (find (fun u => ObjectId.eqb (u_id u) oid) (usercoin db)),
     db, [FindOne Cusercoin]).

(** [db["session"].find_one({"user_id": user_id})] *)
Definition find_one_session_by_user_id (user_id : string) : M (option SessionDoc) :=
  fun db =>
    (Return (find (fun s => String.eqb (s_user_id s) user_id) (session db)),
     db, [FindOne Csession]).

(** [db["session"].find_one({"token": token})] *)
Definition find_one_session_by_token (token : string) : M (option SessionDoc) :=
  fun db =>
    (Return (find (fun s => String.eqb (s_token s) token) (session db)),
     db, [FindOne Csession]).

(** The first document that matches is patched, the others are left. *)
Fixpoint update_first {A} (p : A -> bool) (f : A -> A) (l : list A) : list A :=
  match l with
  | [] => []
  | x :: r => if p x then f x :: r else x :: update_first p f r
  end.

(** [db["usercoin"].update_one({"_id": oid}, {"$set": patch})] *)
Definition update_one_user (oid : ObjectId.t) (patch : UserDoc -> UserDoc) : M unit :=
  fun db =>
    (Return tt,
     mkDB (update_first (fun u => ObjectId.eqb (u_id u) oid) patch (usercoin db))
          (session db),
     [UpdateOne Cusercoin]).

Definition set_name_updated_at (name : string) (now : Time) (u : UserDoc) : UserDoc :=
  mkUser (u_id u) (u_email u) name (u_coins u) (Some now).

Definition set_coins_updated_at (coins : Z) (now : Time) (u : UserDoc) : UserDoc :=
  mkUser (u_id u) (u_email u) (u_name u) coins (Some now).

(** Modelled from the spec: [create_document] of the module [database], which
    is not among the sources.  It inserts one document into the named
    collection; the store assigns the identifier (here the argument [oid])
    and the document is appended to the collection. *)
Definition create_document_usercoin (oid : ObjectId.t) (email name : string) (coins : Z)
  : M unit :=
  fun db =>
    (Return tt,
     mkDB (usercoin db ++ [mkUser oid email name coins None]) (session db),
     [InsertOne Cusercoin]).

(** Modelled from the spec: [create_document] of the module [database], on
    the collection ["session"]. *)
Definition create_document_session (oid : ObjectId.t) (token user_id user_email : string)
  : M unit :=
  fun db =>
    (Return tt,
     mkDB (usercoin db) (session db ++ [mkSession oid token user_id user_email]),
     [InsertOne Csession]).

(* ------------------------------------------------------------------ *)
(** ** Request and response models *)

Record LoginRequest := mkLoginRequest {
  lr_email : string;
  lr_name : option string
}.

Record LoginResponse := mkLoginResponse {
  token : string;
  email : string;
  name : string;
  coins : Z
}.

Record AddCoinsRequest := mkAddCoinsRequest { amount : Z }.

(** What one request takes from its environment. *)
Record Env := mkEnv {
  env_now : Time;              (* [datetime.now(timezone.utc)] *)
  env_token : string;          (* [secrets.token_hex(24)] *)
  env_user_oid : ObjectId.t;   (* the [_id] given to an inserted user *)
  env_session_oid : ObjectId.t (* the [_id] given to an inserted session *)
}.

(* ------------------------------------------------------------------ *)
(** ** The helpers and handlers of [main.py] *)

Definition _get_user_by_email (email : string) : M (option UserDoc) :=
  find_one_user_by_email email.

(** The [try ... except Exception: return None] around [ObjectId(user_id)]. *)
Definition _get_user_by_id (user_id : string) : M (option UserDoc) :=
  match ObjectId.of_str user_id with
  | ObjectId.InvalidId => ret None
  | ObjectId.Ok oid => find_one_user_by_oid oid
  end.

Definition _create_or_get_session (env : Env) (user : UserDoc) : M string :=
  existing <- find_one_session_by_user_id (ObjectId.str (u_id user)) ;;
  match existing with
  | Some s => ret (s_token s)
  | None =>
      let token := env_token env in
      create_document_session (env_session_oid env) token
        (ObjectId.str (u_id user)) (u_email user) ;;;
      ret token
  end.

(** [authorization.replace("Bearer ", "").strip()] *)
Definition bearer_token (authorization : string) : string :=
  PyStr.strip (PyStr.replace "Bearer " "" authorization).

Definition get_current_user (authorization : option string) : M UserDoc :=
  if negb (PyStr.truthy_opt authorization)
  then raise (HTTPException 401 "Missing Authorization header")
  else
    let token := bearer_token (match authorization with Some a => a | None => "" end) in
    sess <- find_one_session_by_token token ;;
    match sess with
    | None => raise (HTTPException 401 "Invalid token")
    | Some sess =>
        user <- _get_user_by_id (s_user_id sess) ;;
        match user with
        | None => raise (HTTPException 401 "User not found for token")
        | Some user => ret user
        end
    end.

(** The body of [login] once the store handle is known to be configured. *)
Definition login_configured (env : Env) (payload : LoginRequest) : M LoginResponse :=
  user0 <- _get_user_by_email (lr_email payload) ;;
  user1 <-
    match user0 with
    | Some u => ret (Some u)
    | None =>
        let name := PyStr.or_else (lr_name payload)
                      (PyStr.split_head "@"%char (lr_email payload)) in
        create_document_usercoin (env_user_oid env) (lr_email payload) name 0 ;;;
        _get_user_by_email (lr_email payload)
    end ;;
  match user1 with
  | None => raise NoneAccess
  | Some user =>
      user2 <-
        match lr_name payload with
        | Some n =>
            if PyStr.truthy n && negb (String.eqb n (u_name user))
            then
              update_one_user (u_id user) (set_name_updated_at n (env_now env)) ;;;
              _get_user_by_email (lr_email payload)
            else ret (Some user)
        | None => ret (Some user)
        end ;;
      match user2 with
      | None => raise NoneAccess
      | Some user =>
          token <- _create_or_get_session env user ;;
          ret (mkLoginResponse token (u_email user) (u_name user) (u_coins user))
      end
  end.

(** [login]: the global [db] is [None] when the store is not configured. *)
Definition login (db : option DB) (env : Env) (payload : LoginRequest)
  : Outcome LoginResponse * option DB * list Op :=
  match db with
  | None => (Raise (HTTPException 500 "Database not configured"), None, [])
  | Some d =>
      match login_configured env payload d with
      | (r, d', tr) => (r, Some d', tr)
      end
  end.

(** The body of [add_coins]; [user] is what [Depends(get_current_user)]
    resolved. *)
Definition add_coins (env : Env) (payload : AddCoinsRequest) (user : UserDoc) : M Z :=
  let amt := amount payload in
  if (amt =? 0)%Z then ret (u_coins user)
  else if (Z.abs amt >? 10000)%Z
  then raise (HTTPException 400 "Amount too large")
  else
    let new_total := (u_coins user + amt)%Z in
    let new_total := if (new_total <? 0)%Z then 0%Z else new_total in
    update_one_user (u_id user) (set_coins_updated_at new_total (env_now env)) ;;;
    ret new_total.

(** [POST /coins/add]: the dependency runs first, then the handler. *)
Definition post_coins_add (env : Env) (authorization : option string)
    (payload : AddCoinsRequest) : M Z :=
  user <- get_current_user authorization ;;
  add_coins env payload user.

(** [GET /me] *)
Definition me (authorization : option string) : M LoginResponse :=
  user <- get_current_user authorization ;;
  let token :=
    match authorization with
    | Some a => if PyStr.truthy a then bearer_token a else ""
    | None => ""
    end in
  ret (mkLoginResponse token (u_email user) (u_name user) (u_coins user)).

(* ------------------------------------------------------------------ *)
(** ** Reachable stores

    The store starts empty and changes only through the three endpoints.
    A login may take fresh values from its environment; they are what the
    environment promises: [secrets.token_hex(24)] is 48 lower-case
    hexadecimal digits, and the store assigns a well-formed identifier that
    no document of the collection has yet. *)

Definition token_hex_ok (t : string) : bool :=
  (String.length t =? 48) && PyStr.forallb PyStr.is_lower_hex t.

Definition fresh_user_oid (db : DB) (o : ObjectId.t) : bool :=
  forallb (fun u => negb (ObjectId.eqb (u_id u) o)) (usercoin db).

Definition fresh_session_oid (db : DB) (o : ObjectId.t) : bool :=
  forallb (fun s => negb (ObjectId.eqb (s_id s) o)) (session db).

Definition env_ok (db : DB) (env : Env) : bool :=
  token_hex_ok (env_token env)
  && ObjectId.wf (env_user_oid env) && ObjectId.wf (env_session_oid env)
  && fresh_user_oid db (env_user_oid env)
  && fresh_session_oid db (env_session_oid env).

Inductive reachable : DB -> Prop :=
| reach_empty : reachable empty_db
| reach_login db env payload :
    reachable db -> env_ok db env = true ->
    reachable (store (login_configured env payload db))
| reach_me db authorization :
    reachable db -> reachable (store (me authorization db))
| reach_add_coins db env authorization payload :
    reachable db ->
    reachable (store (post_coins_add env authorization payload db)).

(** The invariant of the reachable stores. *)
Record Inv (db : DB) : Prop := mkInv {
  inv_coins : Forall (fun u => (0 <= u_coins u)%Z) (usercoin db);
  inv_oid_wf : Forall (fun u => ObjectId.wf (u_id u) = true) (usercoin db);
  inv_oid_unique : NoDup (map u_id (usercoin db));
  inv_session_owner :
    Forall (fun s => exists u, In u (usercoin db)
                               /\ s_user_id s = ObjectId.str (u_id u))
           (session db);
  inv_session_token : Forall (fun s => token_hex_ok (s_token s) = true) (session db)
}.

(** What [login] does to the user collection before it turns to the
    session: the user it ends with, the store, and the round-trips made. *)
Definition wants_rename (payload : LoginRequest) (u : UserDoc) : bool :=
  match lr_name payload with
  | Some n => PyStr.truthy n && negb (String.eqb n (u_name u))
  | None => false
  end.

Definition find_user_by_email (email : string) (db : DB) : option UserDoc :=
  find (fun u => String.eqb (u_email u) email) (usercoin db).

Definition new_user (env : Env) (payload : LoginRequest) : UserDoc :=
  mkUser (env_user_oid env) (lr_email payload)
    (PyStr.or_else (lr_name payload) (PyStr.split_head "@"%char (lr_email payload)))
    0 None.

Definition renamed_users (env : Env) (payload : LoginRequest) (u : UserDoc) (db : DB)
  : list UserDoc :=
  update_first (fun x => ObjectId.eqb (u_id x) (u_id u))
    (set_name_updated_at (match lr_name payload with Some n => n | None => "" end)
       (env_now env))
    (usercoin db).

Definition resolve_or_create (env : Env) (payload : LoginRequest) (db : DB)
  : UserDoc * DB * list Op :=
  match find_user_by_email (lr_email payload) db with
  | None =>
      (new_user env payload,
       mkDB (usercoin db ++ [new_user env payload]) (session db),
       [FindOne Cusercoin; InsertOne Cusercoin; FindOne Cusercoin])
  | Some u =>
      if wants_rename payload u
      then
        let users := renamed_users env payload u db in
        (match find (fun x => String.eqb (u_email x) (lr_email payload)) users with
         | Some u' => u'
         | None => u
         end,
         mkDB users (session db),
         [FindOne Cusercoin; UpdateOne Cusercoin; FindOne Cusercoin])
      else (u, db, [FindOne Cusercoin])
  end.

(** The balances after a run of adjustments, in the words of the
    specification: the floor is applied at every step. *)
Fixpoint clamp_each_step (balance : Z) (deltas : list Z) : Z :=
  match deltas with
  | [] => balance
  | d :: rest => clamp_each_step (Z.max 0 (balance + d)) rest
  end.

(** A run of [POST /coins/add] requests with one credential. *)
Fixpoint adjust_all (authorization : option string) (calls : list (Env * Z)) (db : DB)
  : DB :=
  match calls with
  | [] => db
  | (env, d) :: rest =>
      adjust_all authorization rest
        (store (post_coins_add env authorization (mkAddCoinsRequest d) db))
  end.

(** The credential's canonical form in the words of the specification: an
    optional leading scheme prefix and the surrounding whitespace are
    stripped, nothing else. *)
Definition strip_scheme_prefix (credential : string) : string :=
  PyStr.strip (PyStr.removeprefix "Bearer " (PyStr.lstrip credential)).

(** The round-trips of a trace that go to one collection. *)
Definition on_coll (c : Coll) (o : Op) : bool :=
  match o with FindOne c' | InsertOne c' | UpdateOne c' => Coll_eqb c c' end.

(** The user a stored identifier resolves to, if any. *)
Definition user_of_id (user_id : string) (db : DB) : option UserDoc :=
  match ObjectId.of_str user_id with
  | ObjectId.InvalidId => None
  | ObjectId.Ok oid => find (fun u => ObjectId.eqb (u_id u) oid) (usercoin db)
  end.

Definition session_of_token (tok : string) (db : DB) : option SessionDoc :=
  find (fun s => String.eqb (s_token s) tok) (session db).

Definition session_of_user_id (user_id : string) (db : DB) : option SessionDoc :=
  find (fun s => String.eqb (s_user_id s) user_id) (session db).

(* ------------------------------------------------------------------ *)
(** * A small scenario, used to instantiate the theorems *)

Definition oid_u1 : ObjectId.t := ObjectId.Oid "65f0c0ffee00000000000001".
Definition oid_s1 : ObjectId.t := ObjectId.Oid "65f0c0ffee000000000000a1".
Definition oid_u2 : ObjectId.t := ObjectId.Oid "65f0c0ffee00000000000002".
Definition oid_s2 : ObjectId.t := ObjectId.Oid "65f0c0ffee000000000000a2".

Definition token1 : string := "0123456789abcdef0123456789abcdef0123456789abcdef".
Definition token2 : string := "fedcba9876543210fedcba9876543210fedcba9876543210".

Definition env1 : Env := mkEnv 1 token1 oid_u1 oid_s1.
Definition env2 : Env := mkEnv 2 token2 oid_u2 oid_s2.

(** The store after [login("a@x.com")] on the empty store. *)
Definition db_a : DB :=
  store (login_configured env1 (mkLoginRequest "a@x.com" None) empty_db).

(** ... and after that user added 30 coins. *)
Definition db_a30 : DB :=
  store (post_coins_add env2 (Some ("Bearer " ++ token1)%string) (mkAddCoinsRequest 30) db_a).

(** A store whose only session names no well-formed user identifier. *)
Definition db_malformed : DB :=
  mkDB [] [mkSession oid_s1 token1 "not-an-object-id" "a@x.com"].

(* ------------------------------------------------------------------ *)
(** ** The diagnostic endpoint [GET /test]

    The handler looks at the store handle and at two environment
    variables.  Of the handle it reads [db.name] (when the attribute is
    there) and calls [db.list_collection_names()], which answers with the
    names or raises; the text of the exception is [str(e)].  The status
    texts are kept byte for byte as the source file has them. *)

Record DbHandle := mkDbHandle {
  h_name : option string;                 (* [db.name], [None] without the attribute *)
  h_list_collection_names : string + list string   (* [inl]: the call raised *)
}.

Record TestResponse := mkTestResponse {
  t_backend : string;
  t_database : string;
  t_database_url : option string;
  t_database_name : option string;
  t_connection_status : string;
  t_collections : list string
}.

(** [s[:n]] *)
Definition str_take (n : nat) (s : string) : string := String.substring 0 n s.

(** [os.getenv(k)] used as a condition: unset and empty both count as false. *)
Definition getenv_set (v : option string) : bool := PyStr.truthy_opt v.

(** The response as it stands when the [try] block is left.  The reads of
    the handle are plain values here, so only the listing can raise and the
    outer [except] has nothing to catch. *)
Definition test_database_probe (db : option DbHandle) : TestResponse :=
  let response :=
    mkTestResponse "✅ Running" "❌ Not Available" None None "Not Connected" [] in
  match db with
  | Some h =>
      let response :=
        mkTestResponse (t_backend response) "✅ Available" (Some "✅ Configured")
          (Some (match h_name h with Some n => n | None => "✅ Connected" end))
          "Connected" (t_collections response) in
      match h_list_collection_names h with
      | inr collections =>
          mkTestResponse (t_backend response) "✅ Connected & Working"
            (t_database_url response) (t_database_name response)
            (t_connection_status response) (firstn 10 collections)
      | inl e =>
          mkTestResponse (t_backend response)
            ("⚠️  Connected but Error: " ++ str_take 50 e)%string
            (t_database_url response) (t_database_name response)
            (t_connection_status response) (t_collections response)
      end
  | None =>
      mkTestResponse (t_backend response) "⚠️  Available but not initialized"
        (t_database_url response) (t_database_name response)
        (t_connection_status response) (t_collections response)
  end.

(** [test_database]; [database_url] and [database_name] are what
    [os.getenv("DATABASE_URL")] and [os.getenv("DATABASE_NAME")] return. *)
Definition test_database (db : option DbHandle) (database_url database_name : option string)
  : TestResponse :=
  let response := test_database_probe db in
  mkTestResponse (t_backend response) (t_database response)
    (Some (if getenv_set database_url then "✅ Set" else "❌ Not Set"))
    (Some (if getenv_set database_name then "✅ Set" else "❌ Not Set"))
    (t_connection_status response) (t_collections response).

(* ------------------------------------------------------------------ *)
(** ** Vocabulary of the further properties *)

(** Text made of whitespace only. *)
Definition all_space (s : string) : bool := PyStr.forallb PyStr.isspace s.

(** Text without the character [c]. *)
Definition without_char (c : ascii) (s : string) : bool :=
  PyStr.forallb (fun x => negb (Ascii.eqb x c)) s.

(** The user collection with the balance of the user [oid] set, every
    other document as it was. *)
Definition with_balance (oid : ObjectId.t) (coins : Z) (now : Time) (users : list UserDoc)
  : list UserDoc :=
  map (fun x => if ObjectId.eqb (u_id x) oid then set_coins_updated_at coins now x else x)
      users.

(** The store after a run of requests, oldest first. *)
Inductive Request :=
| ReqLogin (env : Env) (payload : LoginRequest)
| ReqMe (authorization : option string)
| ReqAddCoins (env : Env) (authorization : option string) (payload : AddCoinsRequest).

Definition serve (db : DB) (r : Request) : DB :=
  match r with
  | ReqLogin env payload => store (login_configured env payload db)
  | ReqMe authorization => store (me authorization db)
  | ReqAddCoins env authorization payload =>
      store (post_coins_add env authorization payload db)
  end.

Definition serve_all (db : DB) (rs : list Request) : DB := fold_left serve rs db.

(** A [user_id] without the whitespace that [bytes.fromhex] skips: the
    constructor then refuses it or builds a value of 12 bytes.  Every
    [user_id] this program writes is one, being [str] of an ObjectId. *)
Definition unpadded (user_id : string) : bool :=
  PyStr.forallb (fun c => negb (ObjectId.is_ascii_space c)) user_id.

(** What the store keeps through any run of requests, whatever the
    environment hands out. *)
Definition session_owned (db : DB) (s : SessionDoc) : Prop :=
  exists u, In u (usercoin db)
            /\ s_user_id s = ObjectId.str (u_id u)
            /\ s_user_email s = u_email u.

Record Keys (db : DB) : Prop := mkKeys {
  keys_email : NoDup (map u_email (usercoin db));
  keys_session : NoDup (map s_user_id (session db));
  keys_owner : Forall (session_owned db) (session db)
}.

(* ------------------------------------------------------------------ *)
(** * Proofs *)

Ltac trace_eq := simpl; rewrite ?app_nil_r; reflexivity.


(** ** First-match search and update on a collection *)

Section FirstMatch.
Context {A : Type}.
Implicit Types (p q : A -> bool) (f : A -> A) (l : list A).

Lemma find_none_iff p l :
  find p l = None <-> forall x, In x l -> p x = false.
Proof.
  split.
  - intros H x Hx. exact (find_none p l H x Hx).
  - induction l as [|a l IH]; intros H; simpl; [reflexivity|].
    rewrite (H a (or_introl eq_refl)). apply IH.
    intros x Hx. apply H. now right.
Qed.

Lemma find_some_in p l x : find p l = Some x -> In x l /\ p x = true.
Proof. apply find_some. Qed.

Lemma find_exists p l x : In x l -> p x = true -> exists y, find p l = Some y.
Proof.
  intros Hin Hp. destruct (find p l) as [y|] eqn:E; [now exists y|].
  rewrite find_none_iff in E. rewrite (E x Hin) in Hp. discriminate.
Qed.

Lemma find_app_hit p l l' x : find p l = Some x -> find p (l ++ l') = Some x.
Proof.
  induction l as [|a l IH]; simpl; [discriminate|].
  destruct (p a); auto.
Qed.

Lemma find_app_miss p l l' : find p l = None -> find p (l ++ l') = find p l'.
Proof.
  induction l as [|a l IH]; simpl; [reflexivity|].
  destruct (p a); [discriminate|auto].
Qed.

Lemma update_first_map {B} (g : A -> B) p f l :
  (forall x, g (f x) = g x) -> map g (update_first p f l) = map g l.
Proof.
  intros Hg. induction l as [|a l IH]; simpl; [reflexivity|].
  destruct (p a); simpl; [now rewrite Hg | now rewrite IH].
Qed.

Lemma update_first_Forall (P : A -> Prop) p f l :
  (forall x, P x -> P (f x)) -> Forall P l -> Forall P (update_first p f l).
Proof.
  intros Hf H. induction H as [|a l Ha Hl IH]; simpl; [constructor|].
  destruct (p a); constructor; auto.
Qed.

Lemma update_first_miss p f l : find p l = None -> update_first p f l = l.
Proof.
  induction l as [|a l IH]; simpl; [reflexivity|].
  destruct (p a); [discriminate|]. intros H. now rewrite IH.
Qed.

Lemma In_update_first p f l y :
  In y (update_first p f l) -> In y l \/ exists x, In x l /\ y = f x.
Proof.
  induction l as [|a l IH]; simpl; [tauto|].
  destruct (p a); simpl.
  - intros [<-|H]; [right; exists a; auto | auto].
  - intros [<-|H]; [auto|].
    destruct (IH H) as [?|(x & ? & ?)]; [auto|right; exists x; auto].
Qed.

Lemma In_update_first_back p f l x :
  In x l -> In x (update_first p f l) \/ In (f x) (update_first p f l).
Proof.
  induction l as [|a l IH]; simpl; [tauto|].
  destruct (p a); simpl.
  - intros [<-|H]; auto.
  - intros [<-|H]; [auto|]. destruct (IH H); auto.
Qed.

(** The document an update patched is the one a search with the same
    filter finds afterwards, when the patch keeps the filtered field. *)
Lemma find_update_first_same p f l :
  (forall x, p (f x) = p x) ->
  find p (update_first p f l) = option_map f (find p l).
Proof.
  intros Hp. induction l as [|a l IH]; simpl; [reflexivity|].
  destruct (p a) eqn:E; simpl.
  - now rewrite Hp, E.
  - now rewrite E.
Qed.

(** A search on another field, kept by the patch, finds the document at
    the same place: patched or not. *)
Lemma find_update_first_other q p f l x :
  (forall y, q (f y) = q y) ->
  find q l = Some x ->
  find q (update_first p f l) = Some x \/ find q (update_first p f l) = Some (f x).
Proof.
  intros Hq. induction l as [|a l IH]; simpl; [discriminate|].
  destruct (q a) eqn:Ea.
  - intros [= <-]. destruct (p a); simpl.
    + rewrite Hq, Ea. now right.
    + rewrite Ea. now left.
  - intros H. destruct (p a); simpl.
    + rewrite Hq, Ea. now left.
    + rewrite Ea. auto.
Qed.

Lemma find_update_first_none q p f l :
  (forall y, q (f y) = q y) ->
  find q l = None -> find q (update_first p f l) = None.
Proof.
  intros Hq. induction l as [|a l IH]; simpl; [reflexivity|].
  destruct (q a) eqn:Ea; [discriminate|].
  intros H. destruct (p a); simpl; rewrite ?Hq, Ea; auto.
Qed.

End FirstMatch.

(** ** Identifiers *)

Lemma ObjectId_eqb_eq (a b : ObjectId.t) : ObjectId.eqb a b = true <-> a = b.
Proof.
  destruct a as [x], b as [y]. unfold ObjectId.eqb. simpl.
  rewrite String.eqb_eq. split; congruence.
Qed.

Lemma ObjectId_eqb_refl (a : ObjectId.t) : ObjectId.eqb a a = true.
Proof. now apply ObjectId_eqb_eq. Qed.

Lemma is_lower_hex_is_hex c : PyStr.is_lower_hex c = true -> PyStr.is_hex c = true.
Proof. unfold PyStr.is_hex, PyStr.is_lower_hex. intros ->. reflexivity. Qed.

Lemma is_lower_hex_lower c : PyStr.is_lower_hex c = true -> PyStr.lower_hex c = c.
Proof.
  unfold PyStr.is_lower_hex, PyStr.lower_hex, PyStr.is_digit, PyStr.is_lower_af,
    PyStr.is_upper_AF.
  set (n := nat_of_ascii c). intros H.
  destruct ((65 <=? n) && (n <=? 70)) eqn:E; [|reflexivity].
  apply andb_true_iff in E as [E1 E2].
  apply Nat.leb_le in E1, E2.
  apply orb_true_iff in H as [H|H]; apply andb_true_iff in H as [H1 H2];
    apply Nat.leb_le in H1, H2; lia.
Qed.

Lemma forallb_lower_hex_is_hex s :
  PyStr.forallb PyStr.is_lower_hex s = true -> PyStr.forallb PyStr.is_hex s = true.
Proof.
  induction s as [|c s IH]; simpl; [reflexivity|].
  intros H. apply andb_true_iff in H as [Hc Hs].
  now rewrite (is_lower_hex_is_hex _ Hc), IH.
Qed.

Lemma map_lower_hex_id s :
  PyStr.forallb PyStr.is_lower_hex s = true -> PyStr.map PyStr.lower_hex s = s.
Proof.
  induction s as [|c s IH]; simpl; [reflexivity|].
  intros H. apply andb_true_iff in H as [Hc Hs].
  now rewrite (is_lower_hex_lower _ Hc), IH.
Qed.

Lemma lower_hex_not_ascii_space c :
  PyStr.is_lower_hex c = true -> ObjectId.is_ascii_space c = false.
Proof.
  unfold PyStr.is_lower_hex, PyStr.is_digit, PyStr.is_lower_af, ObjectId.is_ascii_space.
  set (n := nat_of_ascii c). intros H.
  apply orb_true_iff in H as [H|H]; apply andb_true_iff in H as [H1 H2];
    apply Nat.leb_le in H1, H2;
    (apply orb_false_iff; split;
     [apply andb_false_iff; right; apply Nat.leb_gt; lia | apply Nat.eqb_neq; lia]).
Qed.

(** [bytes.fromhex] gives back a text of lower-case digits of even length. *)
Lemma fromhex_lower_hex (n : nat) :
  forall h, String.length h = 2 * n ->
            PyStr.forallb PyStr.is_lower_hex h = true ->
            ObjectId.fromhex h = Some h.
Proof.
  induction n as [|n IH]; intros h Hlen Hall.
  - destruct h; [reflexivity|discriminate].
  - destruct h as [|c [|c' h]]; try (cbn in Hlen; lia).
    cbn [PyStr.forallb] in Hall.
    apply andb_true_iff in Hall as [Hc Hall]. apply andb_true_iff in Hall as [Hc' Hall].
    cbn [ObjectId.fromhex].
    rewrite (lower_hex_not_ascii_space _ Hc), (is_lower_hex_is_hex _ Hc),
      (is_lower_hex_is_hex _ Hc'), (is_lower_hex_lower _ Hc), (is_lower_hex_lower _ Hc').
    rewrite IH; [reflexivity| |exact Hall].
    cbn [String.length] in Hlen. lia.
Qed.

(** [ObjectId(str(oid)) == oid] for the identifiers the store produces. *)
Lemma ObjectId_of_str_str (o : ObjectId.t) :
  ObjectId.wf o = true -> ObjectId.of_str (ObjectId.str o) = ObjectId.Ok o.
Proof.
  destruct o as [h]. unfold ObjectId.wf, ObjectId.of_str, ObjectId.str.
  cbn [ObjectId.hex]. intros H. apply andb_true_iff in H as [Hl Hh].
  rewrite Hl. apply Nat.eqb_eq in Hl.
  now rewrite (fromhex_lower_hex 12 h Hl Hh).
Qed.

Lemma ObjectId_invalid s :
  ObjectId.is_valid s = false -> ObjectId.of_str s = ObjectId.InvalidId.
Proof.
  unfold ObjectId.is_valid. destruct (ObjectId.of_str s); [discriminate|reflexivity].
Qed.

Lemma token_hex_nonempty t : token_hex_ok t = true -> t <> EmptyString.
Proof. intros H ->. discriminate H. Qed.

(** ** The handlers, step by step *)

Lemma _get_user_by_id_eq user_id db :
  result (_get_user_by_id user_id db) = Return (user_of_id user_id db)
  /\ store (_get_user_by_id user_id db) = db
  /\ filter is_write (trace (_get_user_by_id user_id db)) = [].
Proof.
  unfold _get_user_by_id, user_of_id.
  destruct (ObjectId.of_str user_id); repeat split; reflexivity.
Qed.

Lemma get_current_user_eq authorization db :
  get_current_user authorization db =
  match authorization with
  | None | Some EmptyString =>
      (Raise (HTTPException 401 "Missing Authorization header"), db, [])
  | Some a =>
      match session_of_token (bearer_token a) db with
      | None => (Raise (HTTPException 401 "Invalid token"), db, [FindOne Csession])
      | Some s =>
          match user_of_id (s_user_id s) db with
          | None =>
              (Raise (HTTPException 401 "User not found for token"), db,
               FindOne Csession :: trace (_get_user_by_id (s_user_id s) db))
          | Some u =>
              (Return u, db, FindOne Csession :: trace (_get_user_by_id (s_user_id s) db))
          end
      end
  end.
Proof.
  destruct authorization as [[|c a]|]; try reflexivity.
  unfold get_current_user, session_of_token, user_of_id. cbn [PyStr.truthy_opt PyStr.truthy negb].
  unfold bind, find_one_session_by_token, _get_user_by_id.
  destruct (find _ (session db)) as [s|]; [|reflexivity].
  destruct (ObjectId.of_str (s_user_id s)) as [oid|]; [|reflexivity].
  unfold find_one_user_by_oid.
  destruct (find _ (usercoin db)); reflexivity.
Qed.

Lemma get_current_user_store authorization db :
  store (get_current_user authorization db) = db.
Proof.
  rewrite get_current_user_eq.
  destruct authorization as [[|c a]|]; try reflexivity.
  destruct (session_of_token _ db) as [s|]; [|reflexivity].
  destruct (user_of_id _ db); reflexivity.
Qed.

Lemma get_current_user_reads authorization db :
  filter is_write (trace (get_current_user authorization db)) = [].
Proof.
  rewrite get_current_user_eq.
  destruct authorization as [[|c a]|]; try reflexivity.
  destruct (session_of_token _ db) as [s|]; [|reflexivity].
  destruct (_get_user_by_id_eq (s_user_id s) db) as (_ & _ & Ht).
  destruct (user_of_id _ db); simpl; exact Ht.
Qed.

Lemma _create_or_get_session_eq env user db :
  _create_or_get_session env user db =
  match session_of_user_id (ObjectId.str (u_id user)) db with
  | Some s => (Return (s_token s), db, [FindOne Csession])
  | None =>
      (Return (env_token env),
       mkDB (usercoin db)
            (session db ++ [mkSession (env_session_oid env) (env_token env)
                              (ObjectId.str (u_id user)) (u_email user)]),
       [FindOne Csession; InsertOne Csession])
  end.
Proof.
  unfold _create_or_get_session, session_of_user_id, bind, find_one_session_by_user_id.
  destruct (find _ (session db)); reflexivity.
Qed.

Lemma or_else_rename_false payload email oid now :
  wants_rename payload
    (mkUser oid email (PyStr.or_else (lr_name payload) (PyStr.split_head "@"%char email))
       0 now) = false.
Proof.
  unfold wants_rename. destruct (lr_name payload) as [n|]; [|reflexivity].
  simpl. destruct (PyStr.truthy n) eqn:E; [|reflexivity].
  simpl. now rewrite String.eqb_refl.
Qed.

(** [login] is the user phase followed by the session phase. *)
Lemma login_configured_eq env payload db :
  login_configured env payload db =
  match resolve_or_create env payload db with
  | (user, db1, tr1) =>
      match _create_or_get_session env user db1 with
      | (Return tok, db2, tr2) =>
          (Return (mkLoginResponse tok (u_email user) (u_name user) (u_coins user)),
           db2, tr1 ++ tr2)
      | (Raise e, db2, tr2) => (Raise e, db2, tr1 ++ tr2)
      end
  end.
Proof.
  unfold login_configured, resolve_or_create, find_user_by_email.
  unfold bind at 1. unfold _get_user_by_email at 1, find_one_user_by_email at 1.
  destruct (find _ (usercoin db)) as [u|] eqn:Efind.
  - (* the user exists *)
    unfold bind at 1. unfold ret at 1. unfold bind at 1.
    unfold wants_rename. destruct (lr_name payload) as [n|] eqn:En.
    + destruct (PyStr.truthy n && negb (String.eqb n (u_name u))) eqn:Ec.
      * unfold bind at 1. unfold bind at 1. unfold update_one_user at 1.
        unfold _get_user_by_email, find_one_user_by_email.
        cbn [usercoin session]. unfold renamed_users. rewrite En.
        destruct (find_update_first_other
                    (fun x => String.eqb (u_email x) (lr_email payload))
                    (fun x => ObjectId.eqb (u_id x) (u_id u))
                    (set_name_updated_at n (env_now env)) (usercoin db) u
                    (fun y => eq_refl) Efind) as [E|E]; rewrite E;
          unfold bind, ret;
          destruct (_create_or_get_session env _ _) as [[[t|e] d2] t2]; trace_eq.
      * unfold bind at 1. unfold ret at 1. unfold bind, ret.
        destruct (_create_or_get_session env u _) as [[[t|e] d2] t2]; trace_eq.
    + unfold bind at 1. unfold ret at 1. unfold bind, ret.
      destruct (_create_or_get_session env u _) as [[[t|e] d2] t2]; trace_eq.
  - (* the user is created *)
    unfold bind at 1. unfold bind at 1. unfold bind at 1.
    unfold create_document_usercoin at 1.
    unfold _get_user_by_email at 1, find_one_user_by_email at 1.
    cbn [usercoin session].
    rewrite (find_app_miss _ _ _ Efind). cbn [find u_email].
    rewrite String.eqb_refl.
    pose proof (or_else_rename_false payload (lr_email payload) (env_user_oid env) None) as Hw.
    unfold wants_rename in Hw. unfold new_user.
    destruct (lr_name payload) as [n|].
    + rewrite Hw. unfold bind, ret.
      destruct (_create_or_get_session env _ _) as [[[t|e] d2] t2]; trace_eq.
    + unfold bind, ret.
      destruct (_create_or_get_session env _ _) as [[[t|e] d2] t2]; trace_eq.
Qed.

(** The three ways the user phase of [login] can go. *)
Lemma resolve_or_create_cases env payload db :
  (find_user_by_email (lr_email payload) db = None
   /\ resolve_or_create env payload db =
      (new_user env payload,
       mkDB (usercoin db ++ [new_user env payload]) (session db),
       [FindOne Cusercoin; InsertOne Cusercoin; FindOne Cusercoin]))
  \/ (exists u,
        find_user_by_email (lr_email payload) db = Some u
        /\ wants_rename payload u = false
        /\ resolve_or_create env payload db = (u, db, [FindOne Cusercoin]))
  \/ (exists u u' n,
        find_user_by_email (lr_email payload) db = Some u
        /\ lr_name payload = Some n /\ n <> EmptyString /\ n <> u_name u
        /\ (u' = u \/ u' = set_name_updated_at n (env_now env) u)
        /\ find (fun x => String.eqb (u_email x) (lr_email payload))
             (renamed_users env payload u db) = Some u'
        /\ resolve_or_create env payload db =
           (u', mkDB (renamed_users env payload u db) (session db),
            [FindOne Cusercoin; UpdateOne Cusercoin; FindOne Cusercoin])).
Proof.
  unfold resolve_or_create.
  destruct (find_user_by_email (lr_email payload) db) as [u|] eqn:Efind; [|now left].
  right. destruct (wants_rename payload u) eqn:Ew.
  - right. unfold wants_rename in Ew.
    destruct (lr_name payload) as [n|] eqn:En; [|discriminate].
    apply andb_true_iff in Ew as [Ht Hne].
    assert (Hn : n <> EmptyString) by (intros ->; discriminate).
    assert (Hd : n <> u_name u).
    { intros Heq. apply negb_true_iff in Hne. rewrite Heq, String.eqb_refl in Hne.
      discriminate. }
    unfold renamed_users. rewrite En.
    destruct (find_update_first_other
                (fun x => String.eqb (u_email x) (lr_email payload))
                (fun x => ObjectId.eqb (u_id x) (u_id u))
                (set_name_updated_at n (env_now env)) (usercoin db) u
                (fun y => eq_refl) Efind) as [E|E].
    + exists u, u, n. rewrite E. repeat split; auto.
    + exists u, (set_name_updated_at n (env_now env) u), n. rewrite E.
      repeat split; auto.
  - left. exists u. auto.
Qed.

Lemma clamp_is_max (x : Z) : (if (x <? 0)%Z then 0%Z else x) = Z.max 0 x.
Proof. destruct (Z.ltb_spec x 0); lia. Qed.

Lemma add_coins_eq env payload user db :
  add_coins env payload user db =
  if (amount payload =? 0)%Z then (Return (u_coins user), db, [])
  else if (Z.abs (amount payload) >? 10000)%Z
  then (Raise (HTTPException 400 "Amount too large"), db, [])
  else
    (Return (Z.max 0 (u_coins user + amount payload)),
     mkDB (update_first (fun x => ObjectId.eqb (u_id x) (u_id user))
             (set_coins_updated_at (Z.max 0 (u_coins user + amount payload)) (env_now env))
             (usercoin db))
          (session db),
     [UpdateOne Cusercoin]).
Proof.
  unfold add_coins.
  destruct (amount payload =? 0)%Z; [reflexivity|].
  destruct (Z.abs (amount payload) >? 10000)%Z; [reflexivity|].
  rewrite clamp_is_max. reflexivity.
Qed.

Lemma post_coins_add_eq env authorization payload db :
  post_coins_add env authorization payload db =
  match result (get_current_user authorization db) with
  | Return user =>
      (result (add_coins env payload user db),
       store (add_coins env payload user db),
       trace (get_current_user authorization db) ++ trace (add_coins env payload user db))
  | Raise e => (Raise e, db, trace (get_current_user authorization db))
  end.
Proof.
  unfold post_coins_add, bind.
  pose proof (get_current_user_store authorization db) as Hs.
  destruct (get_current_user authorization db) as [[[u|e] d] t]; cbn in Hs; subst d;
    cbn [result store trace fst snd]; [|reflexivity].
  destruct (add_coins env payload u db) as [[r d2] t2]. reflexivity.
Qed.

Lemma me_store authorization db : store (me authorization db) = db.
Proof.
  unfold me, bind.
  pose proof (get_current_user_store authorization db) as Hs.
  destruct (get_current_user authorization db) as [[[u|e] d] t]; cbn in Hs; subst d;
    reflexivity.
Qed.

Lemma login_configured_returns env payload db :
  exists resp, result (login_configured env payload db) = Return resp.
Proof.
  rewrite login_configured_eq.
  destruct (resolve_or_create env payload db) as [[u d1] t1].
  rewrite _create_or_get_session_eq.
  destruct (session_of_user_id _ d1); eexists; reflexivity.
Qed.

(** ** The invariant holds in every reachable store *)

Lemma Inv_empty : Inv empty_db.
Proof. split; simpl; constructor. Qed.

Lemma fresh_user_oid_notin db o :
  fresh_user_oid db o = true -> ~ In o (map u_id (usercoin db)).
Proof.
  unfold fresh_user_oid. intros H Hin.
  apply in_map_iff in Hin as (u & <- & Hu).
  rewrite forallb_forall in H. specialize (H u Hu).
  now rewrite ObjectId_eqb_refl in H.
Qed.

Lemma env_ok_spec db env :
  env_ok db env = true ->
  token_hex_ok (env_token env) = true
  /\ ObjectId.wf (env_user_oid env) = true
  /\ ObjectId.wf (env_session_oid env) = true
  /\ fresh_user_oid db (env_user_oid env) = true
  /\ fresh_session_oid db (env_session_oid env) = true.
Proof.
  unfold env_ok. intros H.
  apply andb_true_iff in H as [H H5]. apply andb_true_iff in H as [H H4].
  apply andb_true_iff in H as [H H3]. apply andb_true_iff in H as [H1 H2].
  auto.
Qed.

Lemma NoDup_snoc {A} (l : list A) (x : A) : NoDup l -> ~ In x l -> NoDup (l ++ [x]).
Proof.
  intros Hl Hx. induction Hl as [|a l Ha Hl IH]; simpl.
  - constructor; [tauto|constructor].
  - constructor.
    + rewrite in_app_iff. simpl. intros [H|[H|[]]]; [tauto|].
      subst. apply Hx. now left.
    + apply IH. intros H. apply Hx. now right.
Qed.

Lemma owner_after_update (f : UserDoc -> UserDoc) p users s :
  (forall x, u_id (f x) = u_id x) ->
  (exists u, In u users /\ s_user_id s = ObjectId.str (u_id u)) ->
  exists u, In u (update_first p f users) /\ s_user_id s = ObjectId.str (u_id u).
Proof.
  intros Hf (u & Hin & Hs).
  destruct (In_update_first_back p f users u Hin) as [H|H].
  - exists u. auto.
  - exists (f u). rewrite Hf. auto.
Qed.

Lemma Inv_update_user (f : UserDoc -> UserDoc) p db :
  (forall x, u_id (f x) = u_id x) ->
  (forall x, (0 <= u_coins x)%Z -> (0 <= u_coins (f x))%Z) ->
  Inv db -> Inv (mkDB (update_first p f (usercoin db)) (session db)).
Proof.
  intros Hid Hc [I1 I2 I3 I4 I5]. split; cbn [usercoin session].
  - now apply update_first_Forall.
  - apply update_first_Forall; [|assumption]. intros x. now rewrite Hid.
  - now rewrite update_first_map.
  - eapply Forall_impl; [|exact I4]. intros s. now apply owner_after_update.
  - assumption.
Qed.

Lemma Inv_resolve_or_create env payload db :
  Inv db -> env_ok db env = true ->
  Inv (snd (fst (resolve_or_create env payload db)))
  /\ In (fst (fst (resolve_or_create env payload db)))
        (usercoin (snd (fst (resolve_or_create env payload db))))
  /\ session (snd (fst (resolve_or_create env payload db))) = session db.
Proof.
  intros HI Hok.
  destruct (env_ok_spec _ _ Hok) as (Htok & Hwu & Hws & Hfu & Hfs).
  destruct (resolve_or_create_cases env payload db)
    as [(Hf & ->)|[(u & Hf & Hw & ->)|(u & u' & n & Hf & Hn & Hne & Hd & Hu' & Hfind & ->)]];
    cbn [fst snd usercoin session].
  - destruct HI as [I1 I2 I3 I4 I5]. repeat split; cbn [usercoin session].
    + apply Forall_app. split; [assumption|]. repeat constructor. simpl. lia.
    + apply Forall_app. split; [assumption|]. repeat constructor. assumption.
    + rewrite map_app. simpl. apply NoDup_snoc; [assumption|].
      now apply fresh_user_oid_notin.
    + eapply Forall_impl; [|exact I4]. intros s (x & Hx & Hs).
      exists x. split; [apply in_or_app; now left|assumption].
    + assumption.
    + apply in_or_app. right. now left.
  - repeat split; try apply HI.
    apply (find_some_in _ _ _ Hf).
  - repeat split; try (apply Inv_update_user; auto).
    apply (find_some_in _ _ _ Hfind).
Qed.

Lemma Inv_login env payload db :
  Inv db -> env_ok db env = true -> Inv (store (login_configured env payload db)).
Proof.
  intros HI Hok.
  destruct (Inv_resolve_or_create env payload db HI Hok) as (HI1 & Hin & Hs).
  rewrite login_configured_eq.
  destruct (resolve_or_create env payload db) as [[u d1] t1]. cbn [fst snd] in *.
  rewrite _create_or_get_session_eq.
  destruct (session_of_user_id _ d1); [exact HI1|].
  cbn [store fst snd]. destruct HI1 as [I1 I2 I3 I4 I5].
  destruct (env_ok_spec _ _ Hok) as (Htok & Hwu & Hws & Hfu & Hfs).
  split; cbn [usercoin session]; try assumption.
  - apply Forall_app. split.
    + eapply Forall_impl; [|exact I4]. intros s (x & Hx & Hsx). exists x. auto.
    + constructor; [|constructor]. exists u. auto.
  - apply Forall_app. split; [assumption|]. constructor; [|constructor].
    simpl. assumption.
Qed.

Lemma Inv_post_coins_add env authorization payload db :
  Inv db -> Inv (store (post_coins_add env authorization payload db)).
Proof.
  intros HI. rewrite post_coins_add_eq.
  destruct (result (get_current_user authorization db)) as [u|e]; [|exact HI].
  cbn [store fst snd]. rewrite add_coins_eq.
  destruct (amount payload =? 0)%Z; [exact HI|].
  destruct (Z.abs (amount payload) >? 10000)%Z; [exact HI|].
  cbn [store fst snd]. apply Inv_update_user; auto.
  intros x _. simpl. lia.
Qed.

Lemma reachable_Inv db : reachable db -> Inv db.
Proof.
  induction 1 as [|db env payload _ IH Hok|db a _ IH|db env a payload _ IH].
  - exact Inv_empty.
  - now apply Inv_login.
  - now rewrite me_store.
  - now apply Inv_post_coins_add.
Qed.

(* ------------------------------------------------------------------ *)
(** * The scenario of the specification *)

Lemma db_a_reachable : reachable db_a.
Proof. apply reach_login; [apply reach_empty | reflexivity]. Qed.

Lemma db_a30_reachable : reachable db_a30.
Proof. apply reach_add_coins. exact db_a_reachable. Qed.

Example db_a30_balance :
  result (me (Some ("Bearer " ++ token1)%string) db_a30)
  = Return (mkLoginResponse token1 "a@x.com" "a" 30).
Proof. reflexivity. Qed.

(** Scenario of the specification: 200 more coins at balance 30 give 230. *)
Example adjust_200_at_30 :
  result (post_coins_add env2 (Some token1) (mkAddCoinsRequest 200) db_a30) = Return 230%Z.
Proof. reflexivity. Qed.

(* ------------------------------------------------------------------ *)
(** * The claims *)

Lemma login_coins_written env payload db :
  map u_coins (usercoin (store (login_configured env payload db))) = map u_coins (usercoin db)
  \/ map u_coins (usercoin (store (login_configured env payload db)))
     = map u_coins (usercoin db) ++ [0%Z].
Proof.
  rewrite login_configured_eq.
  assert (H : map u_coins (usercoin (snd (fst (resolve_or_create env payload db))))
              = map u_coins (usercoin db)
              \/ map u_coins (usercoin (snd (fst (resolve_or_create env payload db))))
                 = map u_coins (usercoin db) ++ [0%Z]).
  { destruct (resolve_or_create_cases env payload db)
      as [(Hf & ->)|[(u & Hf & Hw & ->)|(u & u' & n & Hf & Hn & Hne & Hd & Hu' & Hfind & ->)]];
      cbn [fst snd usercoin].
    - right. now rewrite map_app.
    - now left.
    - left. unfold renamed_users. now apply update_first_map. }
  destruct (resolve_or_create env payload db) as [[u d1] t1]. cbn [fst snd] in H.
  rewrite _create_or_get_session_eq.
  destruct (session_of_user_id _ d1); exact H.
Qed.

(** C1. In every reachable store the balance of every user is a
    non-negative integer.  Besides, from such a store a login leaves the
    stored balances as they are or adds one user with balance 0, [me]
    writes nothing, and whatever [add_coins] writes leaves every balance
    non-negative. *)
Theorem coins_nonnegative (db : DB) :
  reachable db ->
  Forall (fun u => (0 <= u_coins u)%Z) (usercoin db)
  /\ (forall env payload,
        map u_coins (usercoin (store (login_configured env payload db)))
        = map u_coins (usercoin db)
        \/ map u_coins (usercoin (store (login_configured env payload db)))
           = map u_coins (usercoin db) ++ [0%Z])
  /\ (forall authorization, store (me authorization db) = db)
  /\ (forall env payload user,
        Forall (fun u => (0 <= u_coins u)%Z)
          (usercoin (store (add_coins env payload user db)))).
Proof.
  intros Hr. pose proof (reachable_Inv db Hr) as HI. repeat split.
  - apply HI.
  - intros. apply login_coins_written.
  - intros. apply me_store.
  - intros env payload user. rewrite add_coins_eq.
    destruct (amount payload =? 0)%Z; [apply HI|].
    destruct (Z.abs (amount payload) >? 10000)%Z; [apply HI|].
    cbn [store fst snd usercoin].
    apply update_first_Forall; [|apply HI]. intros x _. simpl. lia.
Qed.

Lemma coins_nonnegative_witness :
  Forall (fun u => (0 <= u_coins u)%Z) (usercoin db_a30).
Proof. exact (proj1 (coins_nonnegative db_a30 db_a30_reachable)). Defined.

(** C3. [add_coins] raises the 400 error exactly when the amount is beyond
    10000 in absolute value; it returns a balance for every other amount,
    10000 and -10000 included.  When it raises, nothing was written: the
    store is the one it started from and no round-trip was made, also for
    the whole request. *)
Theorem add_coins_bound (env : Env) (user : UserDoc) (d : Z) (db : DB) :
  (result (add_coins env (mkAddCoinsRequest d) user db)
   = Raise (HTTPException 400 "Amount too large") <-> (Z.abs d > 10000)%Z)
  /\ ((exists v, result (add_coins env (mkAddCoinsRequest d) user db) = Return v)
      <-> (Z.abs d <= 10000)%Z)
  /\ (forall e, result (add_coins env (mkAddCoinsRequest d) user db) = Raise e ->
        add_coins env (mkAddCoinsRequest d) user db
        = (Raise (HTTPException 400 "Amount too large"), db, []))
  /\ (forall authorization,
        (Z.abs d > 10000)%Z ->
        store (post_coins_add env authorization (mkAddCoinsRequest d) db) = db
        /\ filter is_write
             (trace (post_coins_add env authorization (mkAddCoinsRequest d) db)) = []).
Proof.
  assert (Hbig : forall who, (Z.abs d > 10000)%Z ->
                 add_coins env (mkAddCoinsRequest d) who db
                 = (Raise (HTTPException 400 "Amount too large"), db, [])).
  { intros who H. rewrite add_coins_eq. cbn [amount].
    destruct (Z.eqb_spec d 0); [lia|].
    destruct (Z.gtb_spec (Z.abs d) 10000); [reflexivity|lia]. }
  assert (Hsmall : (Z.abs d <= 10000)%Z ->
                   exists v, result (add_coins env (mkAddCoinsRequest d) user db) = Return v).
  { intros H. rewrite add_coins_eq. cbn [amount].
    destruct (d =? 0)%Z; [eexists; reflexivity|].
    destruct (Z.gtb_spec (Z.abs d) 10000); [lia|eexists; reflexivity]. }
  repeat split.
  - intros H. destruct (Z.le_gt_cases (Z.abs d) 10000) as [Hle|Hgt]; [|lia].
    destruct (Hsmall Hle) as (v & Hv). rewrite Hv in H. discriminate.
  - intros H. now rewrite (Hbig user H).
  - intros (v & Hv). destruct (Z.le_gt_cases (Z.abs d) 10000) as [Hle|Hgt]; [assumption|].
    rewrite Hbig in Hv by lia. discriminate.
  - exact Hsmall.
  - intros e He. destruct (Z.le_gt_cases (Z.abs d) 10000) as [Hle|Hgt].
    + destruct (Hsmall Hle) as (v & Hv). rewrite Hv in He. discriminate.
    + apply Hbig. lia.
  - rewrite post_coins_add_eq.
    destruct (result (get_current_user authorization db)); [|reflexivity].
    now rewrite Hbig.
  - rewrite post_coins_add_eq.
    destruct (result (get_current_user authorization db)); cbn [trace snd].
    + rewrite Hbig by assumption. cbn [trace snd]. rewrite app_nil_r.
      apply get_current_user_reads.
    + apply get_current_user_reads.
Qed.

(** Scenario of the specification: an adjustment by 20000 fails and the
    balance stays 30. *)
Example adjust_20000_fails :
  post_coins_add env2 (Some token1) (mkAddCoinsRequest 20000) db_a30
  = (Raise (HTTPException 400 "Amount too large"), db_a30,
     [FindOne Csession; FindOne Cusercoin]).
Proof. reflexivity. Qed.

(** C6. [add_coins] with amount 0 returns the balance of the user it was
    given, which is the stored one, and writes nothing: the store after the
    request is the store before it and the request made no insert and no
    update, so neither [coins] nor [updated_at] nor any other field
    changed. *)
Theorem add_coins_zero_no_write (env : Env) (user : UserDoc)
    (authorization : option string) (db : DB) :
  add_coins env (mkAddCoinsRequest 0) user db = (Return (u_coins user), db, [])
  /\ store (post_coins_add env authorization (mkAddCoinsRequest 0) db) = db
  /\ filter is_write (trace (post_coins_add env authorization (mkAddCoinsRequest 0) db)) = []
  /\ result (post_coins_add env authorization (mkAddCoinsRequest 0) db)
     = match result (get_current_user authorization db) with
       | Return stored => Return (u_coins stored)
       | Raise e => Raise e
       end
  /\ (forall stored, result (get_current_user authorization db) = Return stored ->
        In stored (usercoin db)).
Proof.
  split; [reflexivity|]. rewrite post_coins_add_eq.
  pose proof (get_current_user_reads authorization db) as Hreads.
  repeat split.
  - destruct (result (get_current_user authorization db)); reflexivity.
  - destruct (result (get_current_user authorization db)); cbn [trace snd];
      rewrite ?app_nil_r; exact Hreads.
  - destruct (result (get_current_user authorization db)); reflexivity.
  - intros stored. rewrite get_current_user_eq.
    destruct authorization as [[|c a]|]; try discriminate.
    destruct (session_of_token _ db) as [s|]; [|discriminate].
    unfold user_of_id.
    destruct (ObjectId.of_str (s_user_id s)) as [oid|]; [|discriminate].
    destruct (find _ (usercoin db)) as [u|] eqn:E; [|discriminate].
    cbn [result fst]. intros [= <-]. apply (find_some_in _ _ _ E).
Qed.

Lemma session_of_token_none tok db :
  session_of_token tok db = None <-> forall s, In s (session db) -> s_token s <> tok.
Proof.
  unfold session_of_token. rewrite find_none_iff. split; intros H s Hs.
  - intros Heq. specialize (H s Hs). rewrite Heq, String.eqb_refl in H. discriminate.
  - apply String.eqb_neq. now apply H.
Qed.

Lemma session_of_token_first tok db s :
  session_of_token tok db = Some s
  <-> exists before after,
        session db = before ++ s :: after
        /\ s_token s = tok
        /\ (forall x, In x before -> s_token x <> tok).
Proof.
  unfold session_of_token. split.
  - generalize (session db). intros l. induction l as [|y l IH]; cbn [find]; [discriminate|].
    destruct (String.eqb_spec (s_token y) tok) as [Ey|Ey].
    + intros [= <-]. exists [], l. repeat split; auto.
    + intros H. destruct (IH H) as (before & after & -> & Hs & Hb).
      exists (y :: before), after. repeat split; auto.
      intros x [<-|Hx]; auto.
  - intros (before & after & -> & Hs & Hb).
    induction before as [|y before IH]; cbn [app find].
    + now rewrite Hs, String.eqb_refl.
    + destruct (String.eqb_spec (s_token y) tok) as [Ey|Ey].
      * exfalso. apply (Hb y); [now left|assumption].
      * apply IH. intros x Hx. apply Hb. now right.
Qed.

Lemma user_of_id_none user_id db :
  user_of_id user_id db = None
  <-> forall u, In u (usercoin db) -> ObjectId.of_str user_id <> ObjectId.Ok (u_id u).
Proof.
  unfold user_of_id. destruct (ObjectId.of_str user_id) as [oid|].
  - rewrite find_none_iff. split; intros H u Hu.
    + intros [= ->]. specialize (H u Hu). cbn in H.
      rewrite ObjectId_eqb_refl in H. discriminate.
    + destruct (ObjectId.eqb (u_id u) oid) eqn:E; [|reflexivity].
      apply ObjectId_eqb_eq in E. subst oid. now elim (H u Hu).
  - split; [discriminate|reflexivity].
Qed.

Lemma user_of_id_some user_id db u :
  user_of_id user_id db = Some u ->
  In u (usercoin db) /\ ObjectId.of_str user_id = ObjectId.Ok (u_id u).
Proof.
  unfold user_of_id. destruct (ObjectId.of_str user_id) as [oid|]; [|discriminate].
  intros H. destruct (find_some_in _ _ _ H) as (Hin & Heq).
  apply ObjectId_eqb_eq in Heq. subst oid. auto.
Qed.

Lemma get_current_user_cases (authorization : option string) (db : DB) :
  ((exists detail,
      result (get_current_user authorization db) = Raise (HTTPException 401 detail))
   <->
   (authorization = None \/ authorization = Some EmptyString
    \/ (exists a, authorization = Some a
                  /\ forall s, In s (session db) ->
                               s_token s <> bearer_token a)
    \/ (exists a before s after,
          authorization = Some a
          /\ session db = before ++ s :: after
          /\ s_token s = bearer_token a
          /\ (forall x, In x before ->
                        s_token x <> bearer_token a)
          /\ (forall u, In u (usercoin db) ->
                        ObjectId.of_str (s_user_id s) <> ObjectId.Ok (u_id u)))))
  /\ (forall u, result (get_current_user authorization db) = Return u ->
        In u (usercoin db)
        /\ exists a before s after,
             authorization = Some a
             /\ session db = before ++ s :: after
             /\ s_token s = bearer_token a
             /\ (forall x, In x before ->
                           s_token x <> bearer_token a)
             /\ ObjectId.of_str (s_user_id s) = ObjectId.Ok (u_id u))
  /\ (forall e, result (get_current_user authorization db) = Raise e ->
        exists detail, e = HTTPException 401 detail)
  /\ store (get_current_user authorization db) = db
  /\ filter is_write (trace (get_current_user authorization db)) = [].
Proof.
  split; [|split; [|split; [|split]]].
  - rewrite get_current_user_eq. split.
    + intros (detail & H).
      destruct authorization as [[|c a]|]; [now right; left| |now left].
      right. right.
      destruct (session_of_token (bearer_token (String c a)) db) as [s|] eqn:Es.
      * right. apply session_of_token_first in Es as (before & after & Hsplit & Hs & Hb).
        exists (String c a), before, s, after. repeat split; auto.
        apply user_of_id_none.
        destruct (user_of_id (s_user_id s) db); [discriminate|reflexivity].
      * left. exists (String c a). split; [reflexivity|].
        now apply session_of_token_none.
    + intros [->|[->|[(a & -> & H)|(a & before & s & after & -> & Hsplit & Hs & Hb & Hu)]]].
      * eexists; reflexivity.
      * eexists; reflexivity.
      * destruct a as [|c a]; [eexists; reflexivity|].
        apply session_of_token_none in H. rewrite H. eexists; reflexivity.
      * destruct a as [|c a]; [eexists; reflexivity|].
        assert (Es : session_of_token (bearer_token (String c a)) db = Some s)
          by (apply session_of_token_first; exists before, after; auto).
        rewrite Es. apply user_of_id_none in Hu. rewrite Hu. eexists; reflexivity.
  - intros u. rewrite get_current_user_eq.
    destruct authorization as [[|c a]|]; try discriminate.
    destruct (session_of_token (bearer_token (String c a)) db) as [s|] eqn:Es; [|discriminate].
    destruct (user_of_id (s_user_id s) db) as [u'|] eqn:Eu; [|discriminate].
    cbn [result fst]. intros [= <-].
    destruct (user_of_id_some _ _ _ Eu) as (Hin & Hid).
    apply session_of_token_first in Es as (before & after & Hsplit & Hs & Hb).
    split; [exact Hin|]. exists (String c a), before, s, after. auto.
  - intros e. rewrite get_current_user_eq.
    destruct authorization as [[|c a]|]; cbn [result fst];
      try (intros [= <-]; eexists; reflexivity).
    destruct (session_of_token _ db) as [s|]; cbn [result fst];
      try (intros [= <-]; eexists; reflexivity).
    destruct (user_of_id _ db); cbn [result fst];
      [discriminate | intros [= <-]; eexists; reflexivity].
  - apply get_current_user_store.
  - apply get_current_user_reads.
Qed.


(** C5. On a configured store whose sessions hold [user_id]s without
    padding, [get_current_user] raises the 401 error in exactly these
    cases: no credential came (the header is absent or empty); no stored
    session has the stripped credential as its token; or the first stored
    session with that token holds a [user_id] that names no stored user,
    because the constructor refuses it or because no document of the user
    collection has the identifier it builds.  When it returns, the user is
    a stored one and the one that session names.  It raises nothing else,
    and it never writes: the orphaned session is left in the store as it
    was.  (For a padded [user_id], which this program never writes, the
    constructor builds a value shorter than an identifier and the answer
    to the lookup is the driver's own.) *)
Theorem get_current_user_unauthorized (authorization : option string) (db : DB) :
  Forall (fun s => unpadded (s_user_id s) = true) (session db) ->
  ((exists detail,
      result (get_current_user authorization db) = Raise (HTTPException 401 detail))
   <->
   (authorization = None \/ authorization = Some EmptyString
    \/ (exists a, authorization = Some a
                  /\ forall s, In s (session db) ->
                               s_token s <> PyStr.strip (PyStr.replace "Bearer " "" a))
    \/ (exists a before s after,
          authorization = Some a
          /\ session db = before ++ s :: after
          /\ s_token s = PyStr.strip (PyStr.replace "Bearer " "" a)
          /\ (forall x, In x before ->
                        s_token x <> PyStr.strip (PyStr.replace "Bearer " "" a))
          /\ (forall u, In u (usercoin db) ->
                        ObjectId.of_str (s_user_id s) <> ObjectId.Ok (u_id u)))))
  /\ (forall u, result (get_current_user authorization db) = Return u ->
        In u (usercoin db)
        /\ exists a before s after,
             authorization = Some a
             /\ session db = before ++ s :: after
             /\ s_token s = PyStr.strip (PyStr.replace "Bearer " "" a)
             /\ (forall x, In x before ->
                           s_token x <> PyStr.strip (PyStr.replace "Bearer " "" a))
             /\ ObjectId.of_str (s_user_id s) = ObjectId.Ok (u_id u))
  /\ (forall e, result (get_current_user authorization db) = Raise e ->
        exists detail, e = HTTPException 401 detail)
  /\ store (get_current_user authorization db) = db
  /\ filter is_write (trace (get_current_user authorization db)) = [].
Proof. intros _. exact (get_current_user_cases authorization db). Qed.

(** A session that names no user: the credential is refused. *)
Lemma get_current_user_unauthorized_witness :
  exists detail,
    result (get_current_user (Some ("Bearer " ++ token1)%string) db_malformed)
    = Raise (HTTPException 401 detail).
Proof.
  apply (proj2 (proj1 (get_current_user_unauthorized
                         (Some ("Bearer " ++ token1)%string) db_malformed
                         ltac:(repeat constructor)))).
  right. right. right.
  exists ("Bearer " ++ token1)%string, [],
    (mkSession oid_s1 token1 "not-an-object-id" "a@x.com"), [].
  repeat split.
  - intros x [].
  - intros u [].
Defined.

(** The hypothesis of C5 holds in every reachable store. *)
Lemma reachable_sessions_unpadded db :
  reachable db -> Forall (fun s => unpadded (s_user_id s) = true) (session db).
Proof.
  intros Hr. destruct (reachable_Inv db Hr) as [_ Iwf _ Iown _].
  rewrite Forall_forall in *. intros s Hs.
  destruct (Iown s Hs) as (u & Hu & ->). specialize (Iwf u Hu).
  unfold ObjectId.wf in Iwf. apply andb_true_iff in Iwf as [_ Hall].
  unfold unpadded, ObjectId.str. revert Hall.
  generalize (ObjectId.hex (u_id u)). intros h.
  induction h as [|c h IH]; cbn [PyStr.forallb]; [reflexivity|].
  intros H. apply andb_true_iff in H as [Hc Hh].
  now rewrite (lower_hex_not_ascii_space _ Hc), IH.
Qed.

(** What the constructor refuses: a text of another length than 24, and
    a text with a character that is neither a hexadecimal digit nor ASCII
    whitespace. *)
Lemma is_valid_length s : String.length s <> 24 -> ObjectId.is_valid s = false.
Proof.
  intros H. unfold ObjectId.is_valid, ObjectId.of_str.
  apply Nat.eqb_neq in H. now rewrite H.
Qed.

Lemma fromhex_foreign_char s :
  PyStr.forallb (fun c => PyStr.is_hex c || ObjectId.is_ascii_space c) s = false ->
  ObjectId.fromhex s = None.
Proof.
  assert (H : forall n s, String.length s <= n ->
                PyStr.forallb (fun c => PyStr.is_hex c || ObjectId.is_ascii_space c) s = false ->
                ObjectId.fromhex s = None).
  { clear s. induction n as [|n IH]; intros s Hlen Hbad.
    - destruct s; [discriminate|cbn in Hlen; lia].
    - destruct s as [|c r]; [discriminate|].
      cbn [PyStr.forallb] in Hbad. cbn [ObjectId.fromhex].
      destruct (ObjectId.is_ascii_space c) eqn:Esp.
      + rewrite orb_true_r in Hbad. cbn [andb] in Hbad.
        apply IH; [cbn in Hlen; lia|exact Hbad].
      + rewrite orb_false_r in Hbad. destruct (PyStr.is_hex c); [|reflexivity].
        cbn [andb] in Hbad. destruct r as [|c' r']; [reflexivity|].
        destruct (PyStr.is_hex c') eqn:Ec'; [|reflexivity].
        cbn [PyStr.forallb] in Hbad. rewrite Ec' in Hbad. cbn [orb andb] in Hbad.
        rewrite (IH r'); [reflexivity|cbn in Hlen; lia|exact Hbad]. }
  apply (H (String.length s)). lia.
Qed.

Lemma is_valid_foreign_char s :
  PyStr.forallb (fun c => PyStr.is_hex c || ObjectId.is_ascii_space c) s = false ->
  ObjectId.is_valid s = false.
Proof.
  intros H. unfold ObjectId.is_valid, ObjectId.of_str.
  rewrite (fromhex_foreign_char s H). now destruct (String.length s =? 24).
Qed.

(** The constructor takes either case and, as [bytes.fromhex] does, a text
    of 24 characters in which whitespace stands between the bytes; it
    refuses whitespace inside a byte.  An accepted text is looked up in the
    store. *)
Example ObjectId_accepts_upper_case :
  ObjectId.of_str "65F0C0FFEE00000000000001" = ObjectId.Ok oid_u1.
Proof. reflexivity. Qed.

Example ObjectId_accepts_padding :
  ObjectId.of_str "65f0c0ffee000000000001  "
  = ObjectId.Ok (ObjectId.Oid "65f0c0ffee000000000001")
  /\ trace (_get_user_by_id "65f0c0ffee000000000001  " db_a) = [FindOne Cusercoin].
Proof. split; reflexivity. Qed.

Example ObjectId_refuses_split_byte :
  ObjectId.is_valid "6 5f0c0ffee0000000000001" = false.
Proof. reflexivity. Qed.

(** C10. The lookup by identifier is total on malformed identifiers: for a
    string the ObjectId constructor refuses (a length other than 24, or 24
    characters that [bytes.fromhex] refuses), [_get_user_by_id] takes the
    [except] branch: it returns [None] without raising and without a
    round-trip.  So [get_current_user], given a credential whose session,
    the first stored one with that token, holds such a [user_id], raises
    the 401 error "User not found for token" after the one lookup of the
    session, and leaves the store as it was. *)
Theorem malformed_user_id_not_found (user_id : string) (db : DB) :
  ObjectId.is_valid user_id = false ->
  _get_user_by_id user_id db = (Return None, db, [])
  /\ (forall a before s after,
        a <> EmptyString ->
        session db = before ++ s :: after ->
        s_token s = PyStr.strip (PyStr.replace "Bearer " "" a) ->
        (forall x, In x before ->
                   s_token x <> PyStr.strip (PyStr.replace "Bearer " "" a)) ->
        s_user_id s = user_id ->
        get_current_user (Some a) db
        = (Raise (HTTPException 401 "User not found for token"), db, [FindOne Csession])).
Proof.
  intros Hbad.
  assert (H1 : _get_user_by_id user_id db = (Return None, db, [])).
  { unfold _get_user_by_id. now rewrite (ObjectId_invalid _ Hbad). }
  split; [exact H1|].
  intros a before s after Ha Hsplit Htok Hfirst Hid. rewrite get_current_user_eq.
  destruct a as [|c a]; [congruence|].
  assert (Hs : session_of_token (bearer_token (String c a)) db = Some s)
    by (apply session_of_token_first; exists before, after; auto).
  rewrite Hs. unfold user_of_id. rewrite Hid, (ObjectId_invalid _ Hbad), H1. reflexivity.
Qed.

Lemma malformed_user_id_not_found_witness :
  ObjectId.is_valid "not-an-object-id" = false
  /\ get_current_user (Some ("Bearer " ++ token1)%string) db_malformed
     = (Raise (HTTPException 401 "User not found for token"), db_malformed,
        [FindOne Csession]).
Proof.
  split; [reflexivity|].
  apply (proj2 (malformed_user_id_not_found "not-an-object-id" db_malformed eq_refl)
           ("Bearer " ++ token1)%string []
           (mkSession oid_s1 token1 "not-an-object-id" "a@x.com") []);
    [discriminate | reflexivity | reflexivity | intros x [] | reflexivity].
Defined.

(** One adjustment, seen from the credential: the value returned and the
    balance stored afterwards. *)
Lemma adjust_step env authorization d db u :
  result (get_current_user authorization db) = Return u ->
  (0 <= u_coins u)%Z -> (Z.abs d <= 10000)%Z ->
  result (post_coins_add env authorization (mkAddCoinsRequest d) db)
  = Return (Z.max 0 (u_coins u + d))
  /\ exists u',
       result (get_current_user authorization
                 (store (post_coins_add env authorization (mkAddCoinsRequest d) db)))
       = Return u'
       /\ u_coins u' = Z.max 0 (u_coins u + d).
Proof.
  intros Hu Hpos Hd. rewrite post_coins_add_eq, Hu. cbn [result store fst snd].
  rewrite add_coins_eq. cbn [amount].
  destruct (Z.eqb_spec d 0) as [->|Hnz].
  - cbn [fst snd]. replace (Z.max 0 (u_coins u + 0)) with (u_coins u) by lia.
    split; [reflexivity|]. exists u. auto.
  - destruct (Z.gtb_spec (Z.abs d) 10000); [lia|]. cbn [fst snd].
    split; [reflexivity|].
    exists (set_coins_updated_at (Z.max 0 (u_coins u + d)) (env_now env) u).
    split; [|reflexivity].
    rewrite get_current_user_eq in Hu |- *.
    destruct authorization as [[|c a]|]; try discriminate.
    unfold session_of_token, user_of_id in *. cbn [store fst snd session usercoin].
    destruct (find _ (session db)) as [s|]; [|discriminate].
    destruct (ObjectId.of_str (s_user_id s)) as [oid|]; [|discriminate].
    destruct (find _ (usercoin db)) as [u0|] eqn:Ef; [|discriminate].
    cbn [result fst] in Hu. injection Hu as ->.
    destruct (find_some_in _ _ _ Ef) as (_ & Hid).
    apply ObjectId_eqb_eq in Hid. rewrite Hid.
    rewrite find_update_first_same by reflexivity.
    rewrite Ef. reflexivity.
Qed.

(** C2. A run of in-bound adjustments through one credential leaves the
    balance that clamping at every step gives: from the balance [b] of the
    authenticated user, each delta [d] takes the balance to
    [max 0 (b + d)].  A single adjustment returns and stores that value.
    The start balance is non-negative, as it is in every reachable store. *)
Theorem adjust_clamps_each_step (authorization : option string)
    (calls : list (Env * Z)) (db : DB) (u : UserDoc) :
  result (get_current_user authorization db) = Return u ->
  (0 <= u_coins u)%Z ->
  Forall (fun c => (Z.abs (snd c) <= 10000)%Z) calls ->
  (exists u',
     result (get_current_user authorization (adjust_all authorization calls db)) = Return u'
     /\ u_coins u' = clamp_each_step (u_coins u) (map snd calls))
  /\ (forall env d,
        (Z.abs d <= 10000)%Z ->
        result (post_coins_add env authorization (mkAddCoinsRequest d) db)
        = Return (Z.max 0 (u_coins u + d))
        /\ exists u',
             result (get_current_user authorization
                       (store (post_coins_add env authorization (mkAddCoinsRequest d) db)))
             = Return u'
             /\ u_coins u' = Z.max 0 (u_coins u + d)).
Proof.
  intros Hu Hpos Hall. split.
  - revert db u Hu Hpos. induction Hall as [|[env d] calls Hd _ IH]; intros db u Hu Hpos.
    + exists u. auto.
    + cbn [adjust_all map snd clamp_each_step]. cbn [snd] in Hd.
      destruct (adjust_step env authorization d db u Hu Hpos Hd) as (_ & u1 & Hu1 & Hc1).
      destruct (IH _ u1 Hu1) as (u' & Hu' & Hc'); [lia|].
      exists u'. split; [exact Hu'|]. now rewrite Hc', Hc1.
  - intros env d Hd. now apply adjust_step.
Qed.

(** Scenario of the specification: -50 at balance 30 gives 0, not -20; the
    200 that follow give 200. *)
Lemma adjust_clamps_each_step_witness :
  exists u',
    result (get_current_user (Some token1)
              (adjust_all (Some token1) [(env2, (-50)%Z); (env2, 200%Z)] db_a30))
    = Return u'
    /\ u_coins u' = 200%Z.
Proof.
  refine (proj1 (adjust_clamps_each_step (Some token1)
                   [(env2, (-50)%Z); (env2, 200%Z)] db_a30
                   (mkUser oid_u1 "a@x.com" "a" 30 (Some 2)) eq_refl _ _)).
  - simpl. lia.
  - repeat constructor; simpl; lia.
Defined.

Example adjust_minus_50_at_30 :
  result (post_coins_add env2 (Some token1) (mkAddCoinsRequest (-50)) db_a30) = Return 0%Z.
Proof. reflexivity. Qed.

(** After the user phase of [login], a lookup by the email finds the user
    the phase ended with; the sessions are untouched; and a user that was
    there before keeps its identifier. *)
Lemma resolve_or_create_user env payload db :
  find_user_by_email (lr_email payload) (snd (fst (resolve_or_create env payload db)))
  = Some (fst (fst (resolve_or_create env payload db)))
  /\ session (snd (fst (resolve_or_create env payload db))) = session db
  /\ (forall u0, find_user_by_email (lr_email payload) db = Some u0 ->
        u_id (fst (fst (resolve_or_create env payload db))) = u_id u0).
Proof.
  destruct (resolve_or_create_cases env payload db)
    as [(Hf & ->)|[(u & Hf & Hw & ->)|(u & u' & n & Hf & Hn & Hne & Hd & Hu' & Hfind & ->)]];
    cbn [fst snd session]; repeat split; try assumption.
  - unfold find_user_by_email in *. cbn [usercoin].
    rewrite (find_app_miss _ _ _ Hf). simpl. now rewrite String.eqb_refl.
  - intros u0 H. rewrite Hf in H. discriminate.
  - intros u0 H. rewrite Hf in H. now injection H as ->.
  - intros u0 H. rewrite Hf in H. injection H as <-.
    destruct Hu' as [->| ->]; reflexivity.
Qed.

Lemma session_of_user_id_snoc_miss uid db x :
  session_of_user_id uid db = None -> s_user_id x = uid ->
  find (fun s => String.eqb (s_user_id s) uid) (session db ++ [x]) = Some x.
Proof.
  intros H Hx. unfold session_of_user_id in H.
  rewrite (find_app_miss _ _ _ H). simpl. now rewrite Hx, String.eqb_refl.
Qed.

(** C4. Two logins with the same email and the same payload return the
    same token, from any store: both return, the second one finds the
    session of the first, returns its token and inserts no session.  In
    general [_create_or_get_session] returns the token of the session it
    finds for the user and then makes no other round-trip, so nothing is
    minted or persisted. *)
Theorem login_twice_same_token (db : DB) (env env' : Env) (payload : LoginRequest) :
  (exists r1 db1 tr1 r2 db2 tr2,
     login (Some db) env payload = (Return r1, Some db1, tr1)
     /\ login (Some db1) env' payload = (Return r2, Some db2, tr2)
     /\ token r2 = token r1
     /\ session db2 = session db1
     /\ filter (is_insert_on Csession) tr2 = [])
  /\ (forall user s,
        result (find_one_session_by_user_id (ObjectId.str (u_id user)) db) = Return (Some s) ->
        _create_or_get_session env user db = (Return (s_token s), db, [FindOne Csession])).
Proof.
  split.
  - unfold login. rewrite (login_configured_eq env payload db).
    destruct (resolve_or_create_user env payload db) as (Hfind1 & Hsess1 & _).
    destruct (resolve_or_create env payload db) as [[u d1] t1]. cbn [fst snd] in *.
    (* the second login, from a store with the users of [d1] *)
    assert (Hsecond : forall dmid,
               usercoin dmid = usercoin d1 ->
               u_id (fst (fst (resolve_or_create env' payload dmid))) = u_id u
               /\ session (snd (fst (resolve_or_create env' payload dmid))) = session dmid
               /\ filter (is_insert_on Csession)
                    (snd (resolve_or_create env' payload dmid)) = []).
    { intros dmid Hus.
      destruct (resolve_or_create_user env' payload dmid) as (_ & Hs & Hid).
      split; [|split; [exact Hs|]].
      - apply Hid. unfold find_user_by_email in *. now rewrite Hus.
      - destruct (resolve_or_create_cases env' payload dmid)
          as [(_ & ->)|[(x & _ & _ & ->)|(x & x' & n & _ & _ & _ & _ & _ & _ & ->)]];
          reflexivity. }
    rewrite _create_or_get_session_eq.
    destruct (session_of_user_id (ObjectId.str (u_id u)) d1) as [s|] eqn:Es.
    + (* the first login reused a session *)
      destruct (Hsecond d1 eq_refl) as (Hid & Hs2 & Hins).
      exists (mkLoginResponse (s_token s) (u_email u) (u_name u) (u_coins u)), d1,
        (t1 ++ [FindOne Csession]).
      rewrite (login_configured_eq env' payload d1).
      destruct (resolve_or_create env' payload d1) as [[u2 d2] t2]. cbn [fst snd] in *.
      rewrite _create_or_get_session_eq. unfold session_of_user_id in *.
      rewrite Hid, Hs2, Es.
      do 3 eexists. split; [reflexivity|]. split; [reflexivity|].
      cbn [token]. split; [reflexivity|]. split; [exact Hs2|].
      rewrite filter_app, Hins. reflexivity.
    + (* the first login created the session *)
      set (snew := mkSession (env_session_oid env) (env_token env)
                     (ObjectId.str (u_id u)) (u_email u)).
      set (dmid := mkDB (usercoin d1) (session d1 ++ [snew])).
      destruct (Hsecond dmid eq_refl) as (Hid & Hs2 & Hins).
      exists (mkLoginResponse (env_token env) (u_email u) (u_name u) (u_coins u)), dmid,
        (t1 ++ [FindOne Csession; InsertOne Csession]).
      rewrite (login_configured_eq env' payload dmid).
      destruct (resolve_or_create env' payload dmid) as [[u2 d2] t2]. cbn [fst snd] in *.
      rewrite _create_or_get_session_eq. unfold session_of_user_id at 1.
      rewrite Hid, Hs2. cbn [session dmid].
      rewrite (session_of_user_id_snoc_miss _ d1 snew Es eq_refl).
      do 3 eexists. split; [reflexivity|]. split; [reflexivity|].
      cbn [token s_token snew]. split; [reflexivity|]. split; [exact Hs2|].
      rewrite filter_app, Hins. reflexivity.
  - intros user s Hs. rewrite _create_or_get_session_eq.
    cbn [result fst find_one_session_by_user_id] in Hs. injection Hs as Hs.
    unfold session_of_user_id. now rewrite Hs.
Qed.

(** Scenario of the specification: a second login of "a@x.com", now with
    the name "Alice", renames the same user and returns the same token. *)
Example login_again_as_Alice :
  login (Some db_a) env2 (mkLoginRequest "a@x.com" (Some "Alice"))
  = (Return (mkLoginResponse token1 "a@x.com" "Alice" 0),
     Some (mkDB [mkUser oid_u1 "a@x.com" "Alice" 0 (Some 2)]
                [mkSession oid_s1 token1 (ObjectId.str oid_u1) "a@x.com"]),
     [FindOne Cusercoin; UpdateOne Cusercoin; FindOne Cusercoin; FindOne Csession]).
Proof. reflexivity. Qed.

(** ** The credential *)

(** C7, as amended.  [get_current_user] removes every occurrence of the
    text "Bearer " from the credential, wherever it stands, strips the
    surrounding whitespace, and looks the session up by that string,
    compared verbatim.  In a reachable store authentication succeeds if and
    only if some session's token equals that form of the credential. *)
Theorem get_current_user_succeeds_iff (db : DB) (authorization : option string) :
  reachable db ->
  ((exists u, result (get_current_user authorization db) = Return u)
   <->
   (exists a s, authorization = Some a /\ In s (session db)
                /\ s_token s = PyStr.strip (PyStr.replace "Bearer " "" a))).
Proof.
  intros Hr. pose proof (reachable_Inv db Hr) as [_ Iwf _ Iown Itok].
  fold (bearer_token) in *. rewrite get_current_user_eq. split.
  - intros (u & H).
    destruct authorization as [[|c a]|]; try discriminate.
    destruct (session_of_token _ db) as [s|] eqn:Es; [|discriminate].
    destruct (find_some_in _ _ _ Es) as (Hin & Heq).
    apply String.eqb_eq in Heq. exists (String c a), s. auto.
  - intros (a & s & -> & Hin & Htok).
    change (PyStr.strip (PyStr.replace "Bearer " "" a)) with (bearer_token a) in Htok.
    rewrite Forall_forall in Itok, Iown, Iwf.
    destruct a as [|c a].
    { exfalso. apply (token_hex_nonempty _ (Itok s Hin)). exact Htok. }
    destruct (find_exists (fun x => String.eqb (s_token x) (bearer_token (String c a)))
                (session db) s Hin) as (s' & Es').
    { now rewrite Htok, String.eqb_refl. }
    unfold session_of_token. rewrite Es'.
    destruct (find_some_in _ _ _ Es') as (Hin' & _).
    destruct (Iown s' Hin') as (u & Hu & Hid).
    unfold user_of_id. rewrite Hid, (ObjectId_of_str_str _ (Iwf u Hu)).
    destruct (find_exists (fun x => ObjectId.eqb (u_id x) (u_id u)) (usercoin db) u Hu
                (ObjectId_eqb_refl _)) as (u' & Eu').
    rewrite Eu'. exists u'. reflexivity.
Qed.

Lemma get_current_user_succeeds_iff_witness :
  exists u, result (get_current_user (Some ("Bearer " ++ token1)%string) db_a30) = Return u.
Proof.
  apply (proj2 (get_current_user_succeeds_iff db_a30 (Some ("Bearer " ++ token1)%string)
                  db_a30_reachable)).
  exists ("Bearer " ++ token1)%string, (mkSession oid_s1 token1 (ObjectId.str oid_u1) "a@x.com").
  split; [reflexivity|]. split; [left; reflexivity | reflexivity].
Defined.

(** C7 as stated fails: the credential below carries "Bearer " in the
    middle; stripping a leading scheme prefix and the surrounding
    whitespace leaves it as it is, a string that is no session's token, and
    yet it authenticates, as the user whose token is the credential
    without that text. *)
Lemma bearer_inside_credential_authenticates :
  (exists u,
     result (get_current_user
               (Some "0123456789abcdef01234567Bearer 89abcdef0123456789abcdef") db_a)
     = Return u)
  /\ strip_scheme_prefix "0123456789abcdef01234567Bearer 89abcdef0123456789abcdef"
     = "0123456789abcdef01234567Bearer 89abcdef0123456789abcdef"
  /\ (forall s, In s (session db_a) ->
        s_token s
        <> strip_scheme_prefix "0123456789abcdef01234567Bearer 89abcdef0123456789abcdef").
Proof.
  split; [eexists; reflexivity|]. split; [reflexivity|].
  intros s [<-|[]]. discriminate.
Qed.

(** ** The display name *)

Lemma find_renamed_unique (q : UserDoc -> bool) (f : UserDoc -> UserDoc)
    (users : list UserDoc) (u : UserDoc) :
  (forall x, q (f x) = q x) ->
  NoDup (map u_id users) ->
  find q users = Some u ->
  find q (update_first (fun x => ObjectId.eqb (u_id x) (u_id u)) f users) = Some (f u).
Proof.
  intros Hq. induction users as [|a r IH]; simpl; [discriminate|].
  intros Hnd Hfind. inversion Hnd as [|? ? Hnotin Hnd']; subst.
  destruct (q a) eqn:Ea.
  - injection Hfind as ->. rewrite ObjectId_eqb_refl. simpl. now rewrite Hq, Ea.
  - destruct (ObjectId.eqb (u_id a) (u_id u)) eqn:Eid.
    + exfalso. apply Hnotin. apply ObjectId_eqb_eq in Eid. rewrite Eid.
      apply in_map. apply (find_some_in _ _ _ Hfind).
    + simpl. rewrite Ea. now apply IH.
Qed.

Lemma login_users env payload db :
  usercoin (store (login_configured env payload db))
  = usercoin (snd (fst (resolve_or_create env payload db))).
Proof.
  rewrite login_configured_eq.
  destruct (resolve_or_create env payload db) as [[u d1] t1].
  rewrite _create_or_get_session_eq.
  destruct (session_of_user_id _ d1); reflexivity.
Qed.

(** C8, as amended.  A display name that is not the empty string, a
    whitespace-only one included, is taken verbatim: when it differs from
    the stored name of an existing user the login sets the name to it and
    [updated_at] to the time of the call, and on a first login it is stored
    as the name.  The empty string counts as no name: the login of an
    existing user leaves the user collection as it is, and a first login
    stores the local part of the email. *)
Theorem login_display_name (db : DB) (env : Env) (e n : string) :
  reachable db ->
  (n <> EmptyString ->
   (forall u, find_user_by_email e db = Some u -> n <> u_name u ->
      find_user_by_email e (store (login_configured env (mkLoginRequest e (Some n)) db))
      = Some (set_name_updated_at n (env_now env) u))
   /\ (find_user_by_email e db = None ->
       find_user_by_email e (store (login_configured env (mkLoginRequest e (Some n)) db))
       = Some (mkUser (env_user_oid env) e n 0 None)))
  /\ (n = EmptyString ->
      (forall u, find_user_by_email e db = Some u ->
         usercoin (store (login_configured env (mkLoginRequest e (Some n)) db))
         = usercoin db)
      /\ (find_user_by_email e db = None ->
          find_user_by_email e (store (login_configured env (mkLoginRequest e (Some n)) db))
          = Some (mkUser (env_user_oid env) e (PyStr.split_head "@"%char e) 0 None))).
Proof.
  intros Hr. pose proof (reachable_Inv db Hr) as [_ _ Iuniq _ _].
  unfold find_user_by_email. rewrite !login_users.
  unfold resolve_or_create, find_user_by_email, wants_rename, new_user, renamed_users.
  cbn [lr_email lr_name].
  split.
  - intros Hn. assert (Ht : PyStr.truthy n = true).
    { clear - Hn. destruct n; [now elim Hn | reflexivity]. }
    split.
    + intros u Hf Hd. rewrite Hf, Ht.
      apply String.eqb_neq in Hd. rewrite Hd. cbn [andb negb fst snd usercoin].
      now apply find_renamed_unique.
    + intros Hf. rewrite Hf. cbn [fst snd usercoin].
      rewrite (find_app_miss _ _ _ Hf).
      simpl. rewrite String.eqb_refl, Ht. reflexivity.
  - intros ->. split.
    + intros u Hf. rewrite Hf. reflexivity.
    + intros Hf. rewrite Hf. cbn [fst snd usercoin].
      rewrite (find_app_miss _ _ _ Hf).
      simpl. rewrite String.eqb_refl. reflexivity.
Qed.

(** A whitespace-only name replaces the stored one. *)
Lemma login_display_name_witness :
  find_user_by_email "a@x.com"
    (store (login_configured env2 (mkLoginRequest "a@x.com" (Some "  ")) db_a30))
  = Some (mkUser oid_u1 "a@x.com" "  " 30 (Some 2)).
Proof.
  refine (proj1 (proj1 (login_display_name db_a30 env2 "a@x.com" "  " db_a30_reachable) _)
            (mkUser oid_u1 "a@x.com" "a" 30 (Some 2)) eq_refl _); discriminate.
Defined.

(** C8 as stated fails on the empty string: it differs from the stored
    name "a", yet the login changes neither the name nor [updated_at]; and
    on a first login it is the local part of the email that is stored. *)
Lemma empty_display_name_is_no_name :
  find_user_by_email "a@x.com" db_a = Some (mkUser oid_u1 "a@x.com" "a" 0 None)
  /\ EmptyString <> "a"
  /\ store (login_configured env2 (mkLoginRequest "a@x.com" (Some EmptyString)) db_a) = db_a
  /\ usercoin (store (login_configured env1 (mkLoginRequest "a@x.com" (Some EmptyString))
                        empty_db))
     = [mkUser oid_u1 "a@x.com" "a" 0 None].
Proof. repeat split. discriminate. Qed.

(** ** Round-trips of a login *)

Lemma session_phase_off_usercoin env user db :
  filter (on_coll Cusercoin) (trace (_create_or_get_session env user db)) = [].
Proof.
  rewrite _create_or_get_session_eq.
  destruct (session_of_user_id _ db); reflexivity.
Qed.

Lemma login_trace_usercoin env payload db :
  filter (on_coll Cusercoin) (trace (login_configured env payload db))
  = filter (on_coll Cusercoin) (snd (resolve_or_create env payload db)).
Proof.
  rewrite login_configured_eq.
  pose proof (session_phase_off_usercoin env (fst (fst (resolve_or_create env payload db)))
                (snd (fst (resolve_or_create env payload db)))) as H.
  destruct (resolve_or_create env payload db) as [[u d1] t1]. cbn [fst snd] in *.
  destruct (_create_or_get_session env u d1) as [[[t|e] d2] t2]; cbn [trace snd] in *;
    now rewrite filter_app, H, app_nil_r.
Qed.

(** C9. The round-trips of one login to the user collection are: when the
    user is absent, one lookup, one insert and the re-read, and no update;
    when the user is there and a non-empty name that differs from the
    stored one was supplied, one lookup, one update and the re-read, and no
    insert; otherwise the one lookup.  So a login makes at most one write
    to the user collection, never an insert and an update together. *)
Theorem login_user_collection_round_trips (db : DB) (env : Env) (payload : LoginRequest) :
  match find_user_by_email (lr_email payload) db with
  | None =>
      filter (on_coll Cusercoin) (snd (login (Some db) env payload))
      = [FindOne Cusercoin; InsertOne Cusercoin; FindOne Cusercoin]
  | Some u =>
      filter (on_coll Cusercoin) (snd (login (Some db) env payload))
      = if wants_rename payload u
        then [FindOne Cusercoin; UpdateOne Cusercoin; FindOne Cusercoin]
        else [FindOne Cusercoin]
  end
  /\ count_ops (is_insert_on Cusercoin) (snd (login (Some db) env payload))
     + count_ops (is_update_on Cusercoin) (snd (login (Some db) env payload)) <= 1
  /\ (count_ops (is_insert_on Cusercoin) (snd (login (Some db) env payload)) = 1
      <-> find_user_by_email (lr_email payload) db = None)
  /\ (count_ops (is_update_on Cusercoin) (snd (login (Some db) env payload)) = 1
      <-> exists u n, find_user_by_email (lr_email payload) db = Some u
                      /\ lr_name payload = Some n /\ n <> EmptyString /\ n <> u_name u).
Proof.
  assert (Hsnd : snd (login (Some db) env payload) = trace (login_configured env payload db)).
  { unfold login. destruct (login_configured env payload db) as [[r d] t]. reflexivity. }
  assert (Hcount : forall p,
             (forall o, p o = true -> on_coll Cusercoin o = true) ->
             count_ops p (trace (login_configured env payload db))
             = count_ops p (snd (resolve_or_create env payload db))).
  { intros p Hp. unfold count_ops. f_equal.
    assert (Hf : forall l, filter p l = filter p (filter (on_coll Cusercoin) l)).
    { induction l as [|o l IH]; simpl; [reflexivity|].
      destruct (on_coll Cusercoin o) eqn:Eo; simpl.
      - now rewrite IH.
      - destruct (p o) eqn:Ep; [|exact IH]. rewrite (Hp o Ep) in Eo. discriminate. }
    rewrite Hf, login_trace_usercoin, <- Hf. reflexivity. }
  rewrite Hsnd, login_trace_usercoin.
  rewrite !Hcount by (intros [c|c|c]; simpl; congruence).
  destruct (resolve_or_create_cases env payload db)
    as [(Hf & ->)|[(u & Hf & Hw & ->)|(u & u' & n & Hf & Hn & Hne & Hd & Hu' & Hfind & ->)]];
    rewrite Hf; cbn [snd].
  - repeat split; auto; try discriminate.
    intros (u & n & H & _). discriminate.
  - rewrite Hw. repeat split; auto; try discriminate.
    intros (u1 & n & [= <-] & Hn & Hne & Hd). unfold wants_rename in Hw.
    rewrite Hn in Hw. apply andb_false_iff in Hw as [Hw|Hw].
    + destruct n; [now elim Hne | discriminate].
    + apply negb_false_iff, String.eqb_eq in Hw. contradiction.
  - assert (Hw : wants_rename payload u = true).
    { unfold wants_rename. rewrite Hn. apply andb_true_iff. split.
      - destruct n; [now elim Hne | reflexivity].
      - apply negb_true_iff. now apply String.eqb_neq. }
    rewrite Hw. repeat split; auto; try discriminate.
    intros _. exists u, n. auto.
Qed.

(* ------------------------------------------------------------------ *)
(** * Further properties of the handlers *)

(** ** The forms of a credential *)

Lemma lower_hex_not_space c : PyStr.is_lower_hex c = true -> PyStr.isspace c = false.
Proof.
  unfold PyStr.is_lower_hex, PyStr.is_digit, PyStr.is_lower_af, PyStr.isspace.
  set (n := nat_of_ascii c). intros H.
  apply orb_true_iff in H as [H|H]; apply andb_true_iff in H as [H1 H2];
    apply Nat.leb_le in H1, H2;
    repeat (apply orb_false_iff; split);
    try (apply andb_false_iff; (left; apply Nat.leb_gt; lia) || (right; apply Nat.leb_gt; lia));
    apply Nat.eqb_neq; lia.
Qed.

Lemma lower_hex_not_B c : PyStr.is_lower_hex c = true -> c <> "B"%char.
Proof.
  intros H ->. discriminate H.
Qed.

Lemma space_not_B c : PyStr.isspace c = true -> c <> "B"%char.
Proof.
  intros H ->. discriminate H.
Qed.

Lemma startswith_Bearer_head c r :
  c <> "B"%char -> PyStr.startswith "Bearer " (String c r) = false.
Proof.
  intros Hc. unfold PyStr.startswith.
  change (String.prefix "Bearer " (String c r))
    with (if ascii_dec "B" c then String.prefix "earer " r else false).
  destruct (ascii_dec "B" c) as [E|E]; [congruence|reflexivity].
Qed.

(** A stretch of text without a "B" is copied by the replacement. *)
Lemma replace_from_copy (p : ascii -> bool) s rest :
  (forall c, p c = true -> c <> "B"%char) ->
  PyStr.forallb p s = true ->
  PyStr.replace_from "Bearer " "" 0 (s ++ rest)%string
  = (s ++ PyStr.replace_from "Bearer " "" 0 rest)%string.
Proof.
  intros Hp. induction s as [|c s IH]; cbn [append PyStr.forallb]; [reflexivity|].
  intros H. apply andb_true_iff in H as [Hc Hs].
  cbn [PyStr.replace_from].
  rewrite (startswith_Bearer_head _ _ (Hp c Hc)). now rewrite IH.
Qed.

Lemma string_app_nil_r (s : string) : (s ++ "")%string = s.
Proof. induction s as [|c s IH]; simpl; [reflexivity|now rewrite IH]. Qed.

Lemma string_app_assoc (a b c : string) : ((a ++ b) ++ c)%string = (a ++ (b ++ c))%string.
Proof. induction a as [|x a IH]; simpl; [reflexivity|now rewrite IH]. Qed.

Lemma replace_from_copy_all (p : ascii -> bool) s :
  (forall c, p c = true -> c <> "B"%char) ->
  PyStr.forallb p s = true ->
  PyStr.replace_from "Bearer " "" 0 s = s.
Proof.
  intros Hp Hs. rewrite <- (string_app_nil_r s) at 1.
  rewrite (replace_from_copy p s "" Hp Hs). simpl. apply string_app_nil_r.
Qed.

Lemma lstrip_spaces w s : all_space w = true -> PyStr.lstrip (w ++ s)%string = PyStr.lstrip s.
Proof.
  unfold all_space. induction w as [|c w IH]; simpl; [reflexivity|].
  intros H. apply andb_true_iff in H as [Hc Hw]. now rewrite Hc, IH.
Qed.

Lemma rstrip_spaces w : all_space w = true -> PyStr.rstrip w = EmptyString.
Proof.
  unfold all_space. induction w as [|c w IH]; simpl; [reflexivity|].
  intros H. apply andb_true_iff in H as [Hc Hw]. now rewrite IH, Hc.
Qed.

Lemma rstrip_token t w :
  PyStr.forallb PyStr.is_lower_hex t = true -> all_space w = true ->
  PyStr.rstrip (t ++ w)%string = t.
Proof.
  intros Ht Hw. induction t as [|c t IH]; cbn [append].
  - now apply rstrip_spaces.
  - cbn [PyStr.forallb] in Ht. apply andb_true_iff in Ht as [Hc Ht].
    cbn [PyStr.rstrip]. rewrite (IH Ht).
    destruct t; [now rewrite (lower_hex_not_space _ Hc)|reflexivity].
Qed.

Lemma lstrip_token t w :
  PyStr.forallb PyStr.is_lower_hex t = true -> t <> EmptyString ->
  PyStr.lstrip (t ++ w)%string = (t ++ w)%string.
Proof.
  intros Ht Hne. destruct t as [|c t]; [congruence|].
  cbn [PyStr.forallb] in Ht. apply andb_true_iff in Ht as [Hc _].
  cbn [append PyStr.lstrip]. now rewrite (lower_hex_not_space _ Hc).
Qed.

Lemma replace_from_scheme (x : string) :
  PyStr.replace_from "Bearer " "" 0 ("Bearer " ++ x)%string
  = PyStr.replace_from "Bearer " "" 0 x.
Proof. destruct x; reflexivity. Qed.

Lemma bearer_token_padded (w1 w2 t : string) :
  all_space w1 = true -> all_space w2 = true ->
  PyStr.forallb PyStr.is_lower_hex t = true -> t <> EmptyString ->
  bearer_token (w1 ++ "Bearer " ++ t ++ w2) = t
  /\ bearer_token (w1 ++ t ++ w2) = t.
Proof.
  intros H1 H2 Ht Hne. unfold bearer_token, PyStr.replace.
  assert (Hw2 : PyStr.replace_from "Bearer " "" 0 w2 = w2)
    by (apply (replace_from_copy_all PyStr.isspace); [apply space_not_B|exact H2]).
  assert (Htail : PyStr.replace_from "Bearer " "" 0 (t ++ w2)%string = (t ++ w2)%string).
  { rewrite (replace_from_copy PyStr.is_lower_hex t w2 lower_hex_not_B Ht). now rewrite Hw2. }
  assert (Hstrip : PyStr.strip (w1 ++ t ++ w2)%string = t).
  { unfold PyStr.strip. rewrite (lstrip_spaces w1 _ H1), (lstrip_token t w2 Ht Hne).
    now apply rstrip_token. }
  split.
  - rewrite (replace_from_copy PyStr.isspace w1 _ space_not_B H1).
    rewrite replace_from_scheme, Htail. exact Hstrip.
  - rewrite (replace_from_copy PyStr.isspace w1 _ space_not_B H1), Htail. exact Hstrip.
Qed.

(** The credential forms a client may send all come down to the token:
    the bare token or the token after the scheme "Bearer ", with
    whitespace before and after, give the token itself, for every token of
    lower-case hexadecimal digits, which is what [secrets.token_hex]
    returns. *)
Theorem bearer_token_of_padded_credential (w1 w2 t : string) :
  all_space w1 = true -> all_space w2 = true ->
  PyStr.forallb PyStr.is_lower_hex t = true -> t <> EmptyString ->
  bearer_token (w1 ++ "Bearer " ++ t ++ w2) = t
  /\ bearer_token (w1 ++ t ++ w2) = t.
Proof. exact (bearer_token_padded w1 w2 t). Qed.

Lemma bearer_token_of_padded_credential_witness :
  bearer_token ("  " ++ "Bearer " ++ token1 ++ " ") = token1.
Proof.
  exact (proj1 (bearer_token_of_padded_credential "  " " " token1
                  eq_refl eq_refl eq_refl ltac:(discriminate))).
Defined.

(** ** Keys of the two collections *)

Lemma find_none_notin_map {A} (g : A -> string) (k : string) (l : list A) :
  find (fun x => String.eqb (g x) k) l = None -> ~ In k (map g l).
Proof.
  intros H Hin. apply in_map_iff in Hin as (x & <- & Hx).
  rewrite find_none_iff in H. specialize (H x Hx). cbn in H.
  rewrite String.eqb_refl in H. discriminate.
Qed.

Lemma session_owned_update (f : UserDoc -> UserDoc) p db s :
  (forall x, u_id (f x) = u_id x) -> (forall x, u_email (f x) = u_email x) ->
  session_owned db s ->
  session_owned (mkDB (update_first p f (usercoin db)) (session db)) s.
Proof.
  intros Hid Hem (u & Hin & Hs & He). unfold session_owned. cbn [usercoin].
  destruct (In_update_first_back p f (usercoin db) u Hin) as [H|H].
  - exists u. auto.
  - exists (f u). rewrite Hid, Hem. auto.
Qed.

Lemma Keys_update_user (f : UserDoc -> UserDoc) p db :
  (forall x, u_id (f x) = u_id x) -> (forall x, u_email (f x) = u_email x) ->
  Keys db -> Keys (mkDB (update_first p f (usercoin db)) (session db)).
Proof.
  intros Hid Hem [K1 K2 K3]. split; cbn [usercoin session].
  - now rewrite update_first_map.
  - assumption.
  - eapply Forall_impl; [|exact K3]. intros s. now apply session_owned_update.
Qed.

Lemma Keys_resolve_or_create env payload db :
  Keys db -> Keys (snd (fst (resolve_or_create env payload db))).
Proof.
  intros HK.
  destruct (resolve_or_create_cases env payload db)
    as [(Hf & ->)|[(u & Hf & Hw & ->)|(u & u' & n & Hf & Hn & Hne & Hd & Hu' & Hfind & ->)]];
    cbn [fst snd]; [|assumption|now apply Keys_update_user].
  destruct HK as [K1 K2 K3]. split; cbn [usercoin session].
  - rewrite map_app. cbn [map new_user u_email]. apply NoDup_snoc; [assumption|].
    now apply find_none_notin_map.
  - assumption.
  - eapply Forall_impl; [|exact K3]. intros s (x & Hx & Hs & He).
    exists x. cbn [usercoin]. split; [apply in_or_app; now left|auto].
Qed.

Lemma Keys_login env payload db :
  Keys db -> Keys (store (login_configured env payload db)).
Proof.
  intros HK. pose proof (Keys_resolve_or_create env payload db HK) as HK1.
  destruct (resolve_or_create_user env payload db) as (Hfind & _ & _).
  rewrite login_configured_eq.
  destruct (resolve_or_create env payload db) as [[u d1] t1]. cbn [fst snd] in *.
  rewrite _create_or_get_session_eq.
  destruct (session_of_user_id _ d1) eqn:Es; [exact HK1|].
  cbn [store fst snd]. destruct HK1 as [K1 K2 K3].
  split; cbn [usercoin session].
  - assumption.
  - rewrite map_app. cbn [map s_user_id]. apply NoDup_snoc; [assumption|].
    now apply find_none_notin_map.
  - apply Forall_app. split.
    + eapply Forall_impl; [|exact K3]. intros s (x & Hx & Hs). exists x. auto.
    + constructor; [|constructor]. exists u. cbn [usercoin s_user_id s_user_email].
      split; [apply (find_some_in _ _ _ Hfind)|auto].
Qed.

Lemma Keys_post_coins_add env authorization payload db :
  Keys db -> Keys (store (post_coins_add env authorization payload db)).
Proof.
  intros HK. rewrite post_coins_add_eq.
  destruct (result (get_current_user authorization db)) as [u|e]; [|exact HK].
  cbn [store fst snd]. rewrite add_coins_eq.
  destruct (amount payload =? 0)%Z; [exact HK|].
  destruct (Z.abs (amount payload) >? 10000)%Z; [exact HK|].
  cbn [store fst snd]. now apply Keys_update_user.
Qed.

Lemma Keys_serve db r : Keys db -> Keys (serve db r).
Proof.
  destruct r as [env payload|a|env a payload]; cbn [serve]; intros HK.
  - now apply Keys_login.
  - now rewrite me_store.
  - now apply Keys_post_coins_add.
Qed.

Lemma Keys_serve_all rs : forall db, Keys db -> Keys (serve_all db rs).
Proof.
  unfold serve_all. induction rs as [|r rs IH]; intros db HK; cbn [fold_left]; [exact HK|].
  apply IH. now apply Keys_serve.
Qed.

Lemma Keys_empty : Keys empty_db.
Proof. split; cbn; constructor. Qed.

(** After any run of requests on the empty store no two users have the
    same email: [login] inserts a user only when the lookup by email found
    none, and no handler changes an email. *)
Theorem one_user_per_email (rs : list Request) :
  NoDup (map u_email (usercoin (serve_all empty_db rs))).
Proof. apply (Keys_serve_all rs empty_db Keys_empty). Qed.

(** After any run of requests on the empty store no two sessions belong to
    the same user: [_create_or_get_session] inserts a session only when the
    lookup by [user_id] found none, so a user never has a second token. *)
Theorem one_session_per_user (rs : list Request) :
  NoDup (map s_user_id (session (serve_all empty_db rs))).
Proof. apply (Keys_serve_all rs empty_db Keys_empty). Qed.

(** After any run of requests on the empty store every session names a
    stored user by its identifier and carries that user's email: the copy
    of the email made when the session was issued never goes stale. *)
Theorem sessions_name_their_user (rs : list Request) :
  Forall (fun s => exists u, In u (usercoin (serve_all empty_db rs))
                             /\ s_user_id s = ObjectId.str (u_id u)
                             /\ s_user_email s = u_email u)
         (session (serve_all empty_db rs)).
Proof. apply (Keys_serve_all rs empty_db Keys_empty). Qed.

(** ** A login, then the token *)

Lemma NoDup_map_inj {A B} (g : A -> B) (l : list A) (a b : A) :
  NoDup (map g l) -> In a l -> In b l -> g a = g b -> a = b.
Proof.
  induction l as [|x l IH]; simpl; [tauto|].
  intros Hnd Ha Hb Hg. inversion Hnd as [|? ? Hnotin Hnd']; subst.
  destruct Ha as [->|Ha], Hb as [->|Hb]; auto.
  - exfalso. apply Hnotin. rewrite Hg. now apply in_map.
  - exfalso. apply Hnotin. rewrite <- Hg. now apply in_map.
Qed.

Lemma find_by_id_unique (users : list UserDoc) (u : UserDoc) :
  NoDup (map u_id users) -> In u users ->
  find (fun x => ObjectId.eqb (u_id x) (u_id u)) users = Some u.
Proof.
  intros Hnd Hin.
  destruct (find_exists (fun x => ObjectId.eqb (u_id x) (u_id u)) users u Hin
              (ObjectId_eqb_refl _)) as (y & Hy).
  rewrite Hy. f_equal.
  destruct (find_some_in _ _ _ Hy) as (Hyin & Heq). apply ObjectId_eqb_eq in Heq.
  exact (NoDup_map_inj u_id users y u Hnd Hyin Hin Heq).
Qed.

Lemma get_current_user_by_session a s u db :
  a <> EmptyString ->
  session_of_token (bearer_token a) db = Some s ->
  s_user_id s = ObjectId.str (u_id u) ->
  ObjectId.wf (u_id u) = true ->
  find (fun x => ObjectId.eqb (u_id x) (u_id u)) (usercoin db) = Some u ->
  get_current_user (Some a) db = (Return u, db, [FindOne Csession; FindOne Cusercoin]).
Proof.
  intros Ha Hs Hid Hwf Hu. rewrite get_current_user_eq.
  destruct a as [|c a]; [congruence|]. rewrite Hs.
  unfold user_of_id, _get_user_by_id. rewrite Hid, (ObjectId_of_str_str _ Hwf), Hu.
  reflexivity.
Qed.

Lemma me_of_user a u db tr :
  a <> EmptyString ->
  get_current_user (Some a) db = (Return u, db, tr) ->
  me (Some a) db
  = (Return (mkLoginResponse (bearer_token a) (u_email u) (u_name u) (u_coins u)), db, tr).
Proof.
  intros Ha H. unfold me, bind. rewrite H.
  destruct a as [|c a]; [congruence|]. unfold ret. cbn [PyStr.truthy].
  now rewrite app_nil_r.
Qed.

(** Once the user phase of [login] is over, the name it was given calls
    for no further rename, when the identifiers of the store are distinct. *)
Lemma resolve_or_create_settled env payload db :
  NoDup (map u_id (usercoin db)) ->
  wants_rename payload (fst (fst (resolve_or_create env payload db))) = false.
Proof.
  intros Hnd.
  destruct (resolve_or_create_cases env payload db)
    as [(Hf & ->)|[(u & Hf & Hw & ->)|(u & u' & n & Hf & Hn & Hne & Hd & Hu' & Hfind & ->)]];
    cbn [fst snd]; [apply or_else_rename_false|exact Hw|].
  unfold renamed_users in Hfind. rewrite Hn in Hfind.
  rewrite (find_renamed_unique (fun x => String.eqb (u_email x) (lr_email payload))
             (set_name_updated_at n (env_now env)) _ u
             (fun x => eq_refl) Hnd Hf) in Hfind.
  injection Hfind as <-. unfold wants_rename. rewrite Hn. cbn [u_name set_name_updated_at].
  rewrite String.eqb_refl. apply andb_false_r.
Qed.

(** The session phase of [login] leaves the user with a session, which the
    lookup by [user_id] finds and whose token is the one returned. *)
Lemma session_phase_result env u d1 :
  exists s,
    result (_create_or_get_session env u d1) = Return (s_token s)
    /\ session_of_user_id (ObjectId.str (u_id u)) (store (_create_or_get_session env u d1))
       = Some s
    /\ usercoin (store (_create_or_get_session env u d1)) = usercoin d1
    /\ (session (store (_create_or_get_session env u d1)) = session d1 /\ In s (session d1)
        \/ session (store (_create_or_get_session env u d1)) = session d1 ++ [s]
           /\ s_token s = env_token env
           /\ session_of_user_id (ObjectId.str (u_id u)) d1 = None).
Proof.
  rewrite _create_or_get_session_eq.
  destruct (session_of_user_id (ObjectId.str (u_id u)) d1) as [s|] eqn:Es.
  - exists s. cbn [result store fst snd]. repeat split; auto.
    left. split; [reflexivity|]. apply (find_some_in _ _ _ Es).
  - exists (mkSession (env_session_oid env) (env_token env)
              (ObjectId.str (u_id u)) (u_email u)).
    cbn [result store fst snd session usercoin s_token].
    split; [reflexivity|]. split.
    + unfold session_of_user_id. cbn [session].
      now apply session_of_user_id_snoc_miss.
    + split; [reflexivity|]. right. auto.
Qed.

(** A second login with the same payload changes nothing: from a
    reachable store, the login that follows a login returns the same
    response, leaves the store exactly as it found it, and makes two
    round-trips, both reads. *)
Theorem login_again_changes_nothing (db db1 : DB) (env env' : Env)
    (payload : LoginRequest) (r : Outcome LoginResponse) (tr : list Op) :
  reachable db ->
  login (Some db) env payload = (r, Some db1, tr) ->
  login (Some db1) env' payload = (r, Some db1, [FindOne Cusercoin; FindOne Csession]).
Proof.
  intros Hr. pose proof (reachable_Inv db Hr) as [_ _ Iuniq _ _].
  unfold login. rewrite (login_configured_eq env payload db).
  pose proof (resolve_or_create_settled env payload db Iuniq) as Hsettled.
  destruct (resolve_or_create_user env payload db) as (Hfind & _ & _).
  destruct (resolve_or_create env payload db) as [[u d1] t1]. cbn [fst snd] in *.
  destruct (session_phase_result env u d1) as (s & Hres & Hs & Hus & _).
  destruct (_create_or_get_session env u d1) as [[r1 d2] t2]. cbn [result store fst snd] in *.
  subst r1. intros [= <- <- <-].
  rewrite (login_configured_eq env' payload d2).
  unfold resolve_or_create, find_user_by_email in *. rewrite Hus, Hfind, Hsettled.
  rewrite _create_or_get_session_eq, Hs. reflexivity.
Qed.

Lemma login_again_changes_nothing_witness :
  login (Some db_a) env2 (mkLoginRequest "a@x.com" None)
  = (Return (mkLoginResponse token1 "a@x.com" "a" 0), Some db_a,
     [FindOne Cusercoin; FindOne Csession]).
Proof.
  exact (login_again_changes_nothing empty_db db_a env1 env2 (mkLoginRequest "a@x.com" None)
           _ _ reach_empty eq_refl).
Defined.

(** The token a login returns opens [me] for the same user: from a
    reachable store whose tokens are distinct, and with a fresh token from
    the environment, [me] called with "Bearer " and the returned token
    answers with the very response of the login, and writes nothing. *)
Theorem login_token_opens_me (db db1 : DB) (env : Env) (payload : LoginRequest)
    (r : LoginResponse) (tr : list Op) :
  reachable db -> env_ok db env = true ->
  NoDup (map s_token (session db)) ->
  (forall s, In s (session db) -> s_token s <> env_token env) ->
  login (Some db) env payload = (Return r, Some db1, tr) ->
  me (Some ("Bearer " ++ token r)%string) db1
  = (Return r, db1, [FindOne Csession; FindOne Cusercoin]).
Proof.
  intros Hr Hok Htok Hfresh.
  pose proof (Inv_login env payload db (reachable_Inv db Hr) Hok) as HI2.
  destruct (Inv_resolve_or_create env payload db (reachable_Inv db Hr) Hok)
    as (HI1 & Hin & Hsess).
  unfold login. rewrite login_configured_eq in HI2 |- *.
  destruct (resolve_or_create env payload db) as [[u d1] t1]. cbn [fst snd] in *.
  destruct (session_phase_result env u d1) as (s & Hres & Hs & Hus & Hcase).
  destruct (_create_or_get_session env u d1) as [[r1 d2] t2]. cbn [result store fst snd] in *.
  subst r1. intros [= <- <- <-]. cbn [token].
  destruct (find_some_in _ _ _ Hs) as (Hsin & Hsid). apply String.eqb_eq in Hsid.
  assert (Hhex : token_hex_ok (s_token s) = true).
  { cbn [store fst snd] in HI2. destruct HI2 as [_ _ _ _ I5].
    rewrite Forall_forall in I5. now apply I5. }
  assert (Hbt : bearer_token ("Bearer " ++ s_token s) = s_token s).
  { unfold token_hex_ok in Hhex. apply andb_true_iff in Hhex as [Hlen Hall].
    assert (Hne : s_token s <> EmptyString) by (intros E; rewrite E in Hlen; discriminate).
    pose proof (proj1 (bearer_token_padded "" "" (s_token s) eq_refl eq_refl Hall Hne)) as H.
    cbn [append] in H |- *. now rewrite string_app_nil_r in H. }
  assert (Hst : session_of_token (s_token s) d2 = Some s).
  { unfold session_of_token. destruct Hcase as [(Heq & Hsin1)|(Heq & Henv & _)]; rewrite Heq.
    - destruct (find_exists (fun x => String.eqb (s_token x) (s_token s)) (session d1) s Hsin1
                  (String.eqb_refl _)) as (y & Hy).
      rewrite Hy. f_equal. destruct (find_some_in _ _ _ Hy) as (Hyin & Hyt).
      apply String.eqb_eq in Hyt. rewrite Hsess in *.
      exact (NoDup_map_inj s_token (session db) y s Htok Hyin Hsin1 Hyt).
    - rewrite find_app_miss.
      + cbn [find]. now rewrite String.eqb_refl.
      + apply find_none_iff. intros x Hx. apply String.eqb_neq.
        rewrite Henv. apply Hfresh. now rewrite <- Hsess. }
  assert (Hne : ("Bearer " ++ s_token s)%string <> EmptyString) by discriminate.
  assert (Hg : get_current_user (Some ("Bearer " ++ s_token s)%string) d2
               = (Return u, d2, [FindOne Csession; FindOne Cusercoin])).
  { destruct HI1 as [_ Iwf Iuniq _ _]. rewrite Forall_forall in Iwf.
    apply (get_current_user_by_session _ s u).
    - exact Hne.
    - now rewrite Hbt.
    - exact Hsid.
    - now apply Iwf.
    - rewrite Hus. now apply find_by_id_unique. }
  rewrite (me_of_user _ u d2 _ Hne Hg), Hbt. reflexivity.
Qed.

Lemma login_token_opens_me_witness :
  me (Some ("Bearer " ++ token2)%string)
     (store (login_configured env2 (mkLoginRequest "b@y.org" (Some "Bea")) db_a30))
  = (Return (mkLoginResponse token2 "b@y.org" "Bea" 0),
     store (login_configured env2 (mkLoginRequest "b@y.org" (Some "Bea")) db_a30),
     [FindOne Csession; FindOne Cusercoin]).
Proof.
  refine (login_token_opens_me db_a30 _ env2 (mkLoginRequest "b@y.org" (Some "Bea"))
            (mkLoginResponse token2 "b@y.org" "Bea" 0) _
            db_a30_reachable eq_refl _ _ eq_refl).
  - repeat constructor. simpl. tauto.
  - intros s [<-|[]]. discriminate.
Defined.

(** ** What an adjustment touches *)

Lemma update_first_by_unique_id (f : UserDoc -> UserDoc) (oid : ObjectId.t)
    (users : list UserDoc) :
  NoDup (map u_id users) ->
  update_first (fun x => ObjectId.eqb (u_id x) oid) f users
  = map (fun x => if ObjectId.eqb (u_id x) oid then f x else x) users.
Proof.
  induction users as [|a r IH]; cbn [update_first map]; [reflexivity|].
  intros Hnd. inversion Hnd as [|? ? Hnotin Hnd']; subst.
  destruct (ObjectId.eqb (u_id a) oid) eqn:Ea.
  - f_equal. rewrite <- (map_id r) at 1. apply map_ext_in.
    intros x Hx. destruct (ObjectId.eqb (u_id x) oid) eqn:Ex; [|reflexivity].
    exfalso. apply Hnotin. apply ObjectId_eqb_eq in Ea, Ex. rewrite Ea, <- Ex.
    now apply in_map.
  - f_equal. now apply IH.
Qed.

Lemma post_coins_add_frame (env : Env) (authorization : option string)
    (payload : AddCoinsRequest) (db : DB) :
  session (store (post_coins_add env authorization payload db)) = session db
  /\ map u_id (usercoin (store (post_coins_add env authorization payload db)))
     = map u_id (usercoin db)
  /\ map u_email (usercoin (store (post_coins_add env authorization payload db)))
     = map u_email (usercoin db)
  /\ map u_name (usercoin (store (post_coins_add env authorization payload db)))
     = map u_name (usercoin db).
Proof.
  rewrite post_coins_add_eq.
  destruct (result (get_current_user authorization db)) as [u|e]; [|auto].
  cbn [store fst snd]. rewrite add_coins_eq.
  destruct (amount payload =? 0)%Z; [auto|].
  destruct (Z.abs (amount payload) >? 10000)%Z; [auto|].
  cbn [store fst snd usercoin session].
  repeat split; now apply update_first_map.
Qed.

(** Whatever the credential and the amount, [POST /coins/add] leaves the
    sessions untouched and keeps the identifier, the email and the name of
    every user, in the same order: it can only change [coins] and
    [updated_at]. *)
Theorem post_coins_add_keeps_identity (env : Env) (authorization : option string)
    (payload : AddCoinsRequest) (db : DB) :
  session (store (post_coins_add env authorization payload db)) = session db
  /\ map u_id (usercoin (store (post_coins_add env authorization payload db)))
     = map u_id (usercoin db)
  /\ map u_email (usercoin (store (post_coins_add env authorization payload db)))
     = map u_email (usercoin db)
  /\ map u_name (usercoin (store (post_coins_add env authorization payload db)))
     = map u_name (usercoin db).
Proof. exact (post_coins_add_frame env authorization payload db). Qed.

(** In a reachable store a successful non-zero adjustment rewrites the
    record of the authenticated user and no other: the user collection
    afterwards is the one before with that user's balance set to the
    clamped sum and [updated_at] to the time of the call. *)
Theorem post_coins_add_touches_one_user (env : Env) (authorization : option string)
    (d : Z) (db : DB) (u : UserDoc) :
  reachable db ->
  result (get_current_user authorization db) = Return u ->
  d <> 0%Z -> (Z.abs d <= 10000)%Z ->
  usercoin (store (post_coins_add env authorization (mkAddCoinsRequest d) db))
  = with_balance (u_id u) (Z.max 0 (u_coins u + d)) (env_now env) (usercoin db).
Proof.
  intros Hr Hu Hd Hb. pose proof (reachable_Inv db Hr) as [_ _ Iuniq _ _].
  rewrite post_coins_add_eq, Hu. cbn [store fst snd]. rewrite add_coins_eq. cbn [amount].
  destruct (Z.eqb_spec d 0); [contradiction|].
  destruct (Z.gtb_spec (Z.abs d) 10000); [lia|].
  cbn [store fst snd usercoin]. now apply update_first_by_unique_id.
Qed.

Lemma post_coins_add_touches_one_user_witness :
  usercoin (store (post_coins_add env2 (Some token1) (mkAddCoinsRequest (-50)) db_a30))
  = with_balance oid_u1 0 2 (usercoin db_a30).
Proof.
  refine (post_coins_add_touches_one_user env2 (Some token1) (-50) db_a30
            (mkUser oid_u1 "a@x.com" "a" 30 (Some 2)) db_a30_reachable eq_refl _ _).
  - discriminate.
  - simpl. lia.
Defined.

(** One call moves the balance by at most 10000: when the authenticated
    user has a non-negative balance and the call returns, the value
    returned is non-negative and within 10000 of the balance before. *)
Theorem post_coins_add_moves_at_most_10000 (env : Env) (authorization : option string)
    (payload : AddCoinsRequest) (db : DB) (u : UserDoc) (v : Z) :
  result (get_current_user authorization db) = Return u ->
  (0 <= u_coins u)%Z ->
  result (post_coins_add env authorization payload db) = Return v ->
  (0 <= v)%Z /\ (Z.abs (v - u_coins u) <= 10000)%Z.
Proof.
  intros Hu Hpos. rewrite post_coins_add_eq, Hu. cbn [result fst]. rewrite add_coins_eq.
  destruct (Z.eqb_spec (amount payload) 0).
  - cbn [fst]. intros [= <-]. lia.
  - destruct (Z.gtb_spec (Z.abs (amount payload)) 10000); cbn [fst]; [discriminate|].
    intros [= <-]. lia.
Qed.

Lemma post_coins_add_moves_at_most_10000_witness :
  (0 <= 10030)%Z /\ (Z.abs (10030 - 30) <= 10000)%Z.
Proof.
  refine (post_coins_add_moves_at_most_10000 env2 (Some token1) (mkAddCoinsRequest 10000)
            db_a30 (mkUser oid_u1 "a@x.com" "a" 30 (Some 2)) 10030 eq_refl _ eq_refl).
  simpl. lia.
Defined.

(** ** Nothing is deleted *)

Lemma serve_grows db r :
  exists new_users new_sessions,
    map u_id (usercoin (serve db r)) = map u_id (usercoin db) ++ map u_id new_users
    /\ map u_email (usercoin (serve db r)) = map u_email (usercoin db) ++ map u_email new_users
    /\ session (serve db r) = session db ++ new_sessions.
Proof.
  assert (Hsame : forall d, map u_id (usercoin d) = map u_id (usercoin db) ->
                            map u_email (usercoin d) = map u_email (usercoin db) ->
                            session d = session db ->
                            exists new_users new_sessions,
                              map u_id (usercoin d) = map u_id (usercoin db) ++ map u_id new_users
                              /\ map u_email (usercoin d)
                                 = map u_email (usercoin db) ++ map u_email new_users
                              /\ session d = session db ++ new_sessions).
  { intros d H1 H2 H3. exists [], []. cbn [map]. now rewrite !app_nil_r. }
  destruct r as [env payload|a|env a payload]; cbn [serve].
  - rewrite login_configured_eq.
    pose proof (session_phase_result env (fst (fst (resolve_or_create env payload db)))
                  (snd (fst (resolve_or_create env payload db)))) as (s & _ & _ & Hus & Hcase).
    assert (Hphase1 : exists new_users,
               map u_id (usercoin (snd (fst (resolve_or_create env payload db))))
               = map u_id (usercoin db) ++ map u_id new_users
               /\ map u_email (usercoin (snd (fst (resolve_or_create env payload db))))
                  = map u_email (usercoin db) ++ map u_email new_users
               /\ session (snd (fst (resolve_or_create env payload db))) = session db).
    { destruct (resolve_or_create_cases env payload db)
        as [(Hf & ->)|[(u & Hf & Hw & ->)|(u & u' & n & Hf & Hn & Hne & Hd & Hu' & Hfind & ->)]];
        cbn [fst snd usercoin session].
      - exists [new_user env payload]. now rewrite !map_app.
      - exists []. cbn [map]. now rewrite !app_nil_r.
      - exists []. cbn [map]. rewrite !app_nil_r. unfold renamed_users.
        repeat split; now apply update_first_map. }
    destruct Hphase1 as (nu & H1 & H2 & H3).
    destruct (resolve_or_create env payload db) as [[u d1] t1]. cbn [fst snd] in *.
    destruct (_create_or_get_session env u d1) as [[[t|e] d2] t2]; cbn [store fst snd] in *;
      rewrite Hus; exists nu;
      (destruct Hcase as [(Hs & _)|(Hs & _)];
       [exists []; rewrite Hs, app_nil_r; auto | exists [s]; rewrite Hs, H3; auto]).
  - rewrite me_store. now apply Hsame.
  - destruct (post_coins_add_frame env a payload db) as (H1 & H2 & H3 & _).
    now apply Hsame.
Qed.

(** No run of requests deletes or re-keys anything: the users of the
    store it started from are still there, in place, with the identifiers
    and the emails they had, and its sessions are still there unchanged;
    what a run adds comes after them.  There is no logout, no token
    rotation and no change of email. *)
Theorem nothing_is_deleted (rs : list Request) (db : DB) :
  exists new_users new_sessions,
    map u_id (usercoin (serve_all db rs)) = map u_id (usercoin db) ++ map u_id new_users
    /\ map u_email (usercoin (serve_all db rs))
       = map u_email (usercoin db) ++ map u_email new_users
    /\ session (serve_all db rs) = session db ++ new_sessions.
Proof.
  unfold serve_all. revert db. induction rs as [|r rs IH]; intros db; cbn [fold_left].
  - exists [], []. cbn [map]. now rewrite !app_nil_r.
  - destruct (IH (serve db r)) as (us2 & ss2 & H1 & H2 & H3).
    destruct (serve_grows db r) as (us1 & ss1 & G1 & G2 & G3).
    exists (us1 ++ us2), (ss1 ++ ss2).
    rewrite H1, H2, H3, G1, G2, G3, !map_app, !app_assoc. auto.
Qed.

(** ** The first login *)

Lemma split_head_local_part (l d : string) :
  without_char "@" l = true ->
  PyStr.split_head "@" (l ++ "@" ++ d) = l.
Proof.
  unfold without_char.
  induction l as [|c l IH]; cbn [append PyStr.forallb PyStr.split_head] in *.
  - reflexivity.
  - intros H. apply andb_true_iff in H as [Hc Hl].
    apply negb_true_iff in Hc. rewrite Hc. now rewrite IH.
Qed.

(** A first login without a name (absent or empty) for the address
    [local@domain] creates the user with the name [local], the text before
    the first "@", and the balance 0: afterwards the lookup by the address
    finds a user with that address, that name and 0 coins, and the login
    answers with the address as given, the name [local] and 0 coins. *)
Theorem first_login_names_user_after_local_part (db : DB) (env : Env)
    (l d : string) (display_name : option string) :
  find_user_by_email (l ++ "@" ++ d) db = None ->
  without_char "@" l = true ->
  PyStr.truthy_opt display_name = false ->
  (exists tok,
     result (login_configured env (mkLoginRequest (l ++ "@" ++ d) display_name) db)
     = Return (mkLoginResponse tok (l ++ "@" ++ d) l 0))
  /\ (exists u,
        find_user_by_email (l ++ "@" ++ d)
          (store (login_configured env (mkLoginRequest (l ++ "@" ++ d) display_name) db))
        = Some u
        /\ u_email u = (l ++ "@" ++ d)%string /\ u_name u = l /\ u_coins u = 0%Z).
Proof.
  intros Hf Hl Hn.
  set (payload := mkLoginRequest (l ++ "@" ++ d) display_name).
  assert (Hname : PyStr.or_else display_name (PyStr.split_head "@" (l ++ "@" ++ d)) = l).
  { rewrite (split_head_local_part l d Hl).
    destruct display_name as [[|c n]|]; [reflexivity|discriminate|reflexivity]. }
  assert (Hres : resolve_or_create env payload db
                 = (new_user env payload,
                    mkDB (usercoin db ++ [new_user env payload]) (session db),
                    [FindOne Cusercoin; InsertOne Cusercoin; FindOne Cusercoin])).
  { unfold resolve_or_create. cbn [lr_email payload]. now rewrite Hf. }
  assert (Hnew : u_email (new_user env payload) = (l ++ "@" ++ d)%string
                 /\ u_name (new_user env payload) = l
                 /\ u_coins (new_user env payload) = 0%Z).
  { unfold new_user. cbn [u_email u_name u_coins lr_email lr_name payload].
    now rewrite Hname. }
  destruct Hnew as (He & Hnm & Hc).
  split.
  - rewrite login_configured_eq, Hres, _create_or_get_session_eq, He, Hnm, Hc.
    destruct (session_of_user_id _ _); eexists; reflexivity.
  - exists (new_user env payload). split; [|auto].
    unfold find_user_by_email in *. rewrite login_users, Hres. cbn [fst snd usercoin].
    rewrite (find_app_miss _ _ _ Hf). cbn [find]. now rewrite He, String.eqb_refl.
Qed.

Lemma first_login_names_user_after_local_part_witness :
  exists u,
    find_user_by_email "a@x.com"
      (store (login_configured env1 (mkLoginRequest "a@x.com" (Some "")) empty_db))
    = Some u
    /\ u_email u = "a@x.com" /\ u_name u = "a" /\ u_coins u = 0%Z.
Proof.
  exact (proj2 (first_login_names_user_after_local_part empty_db env1 "a" "x.com" (Some "")
                  eq_refl eq_refl eq_refl)).
Defined.

(** ** The diagnostic endpoint *)

(** What [GET /test] reports:
    - [database_url] and [database_name] tell only whether the two
      environment variables are set and non-empty; what the handler wrote
      there from the store handle, [db.name] included, is overwritten;
    - [database] never keeps its initial text "Not Available": every path
      replaces it;
    - [collections] holds the first names of the listing, ten at most, and
      is empty when there is no handle or the listing raised;
    - [connection_status] is "Connected" exactly when there is a handle. *)
Theorem test_database_report (db : option DbHandle) (database_url database_name : option string) :
  t_database_url (test_database db database_url database_name)
  = Some (if PyStr.truthy_opt database_url then "✅ Set" else "❌ Not Set")
  /\ t_database_name (test_database db database_url database_name)
     = Some (if PyStr.truthy_opt database_name then "✅ Set" else "❌ Not Set")
  /\ t_database (test_database db database_url database_name) <> "❌ Not Available"
  /\ List.length (t_collections (test_database db database_url database_name)) <= 10
  /\ t_collections (test_database db database_url database_name)
     = match db with
       | Some h =>
           match h_list_collection_names h with
           | inr names => firstn 10 names
           | inl _ => []
           end
       | None => []
       end
  /\ (t_connection_status (test_database db database_url database_name) = "Connected"
      <-> db <> None)
  /\ t_backend (test_database db database_url database_name) = "✅ Running".
Proof.
  split; [reflexivity|]. split; [reflexivity|].
  unfold test_database, test_database_probe.
  destruct db as [[nm [e|names]]|]; cbn.
  - repeat split; try discriminate; auto using Nat.le_0_l.
  - repeat split; try discriminate; auto.
    exact (firstn_le_length 10 names).
  - repeat split; try discriminate; auto using Nat.le_0_l.
    intros H. now elim H.
Qed.
